(** * FireCrawlLoader and the DALL-E wrapper: option normalisation and
      result projection

    A shallow embedding of
    [libs/community/langchain_community/document_loaders/firecrawl.py]
    (class [FireCrawlLoader]) and of the behaviour that
    [libs/community/tests/unit_tests/utilities/test_dalle_image_generator.py]
    exercises.

    Python objects live in a store: a dict is an object at an address, and
    two names for one dict see each other's updates.  The methods of the
    loader are written in a state-and-exception monad over that store, one
    monadic step per Python statement. *)

From Stdlib Require Import ZArith.
From stdpp Require Import gmap strings list fin_maps pretty.

Open Scope string_scope.
Set Warnings "-register-all".

(** ** Python values and the object store *)

Abbreviation loc := positive (only parsing).

(** The values that the option bags and the response records carry
    (floats are left out).  A list is kept by value: the loader never
    updates a list it did not build itself.  A dict or a class instance is
    a reference into the store. *)
Inductive value : Type :=
  | VNone
  | VBool (b : bool)
  | VInt (z : Z)
  | VStr (s : string)
  | VList (xs : list value)
  | VRef (l : loc).

Abbreviation dict := (gmap string value) (only parsing).

(** A stored object: a [dict], or an instance with named attributes (a
    [ScrapeResponse], say). *)
Inductive obj : Type :=
  | ODict (d : dict)
  | OInst (attrs : dict).

(** One call made on the remote client [self.firecrawl]. *)
Record remote_call : Type := RemoteCall {
  rc_method : string;
  rc_args : list value;
  rc_kwargs : dict
}.

Record state : Type := State {
  heap : gmap loc obj;
  calls : list remote_call
}.

Inductive exn : Type :=
  | TypeError
  | AttributeError
  | KeyError (k : string)
  | ValueError (msg : string)
  | ValidationError
  | RemoteError (msg : string)
  | InvalidRef.

Inductive result (A : Type) : Type :=
  | Ok (a : A)
  | Err (e : exn).
Arguments Ok {A} a.
Arguments Err {A} e.

(** ** The monad: a store threaded through, an exception cuts the rest
    short and keeps the store as it was when raised. *)
Definition M (A : Type) : Type := state → result A * state.

Global Instance M_ret : MRet M := λ A a s, (Ok a, s).
Global Instance M_bind : MBind M := λ A B f m s,
  match m s with
  | (Ok a, s') => f a s'
  | (Err e, s') => (Err e, s')
  end.

Definition raise {A : Type} (e : exn) : M A := λ s, (Err e, s).

Definition deref (l : loc) : M obj := λ s,
  match heap s !! l with
  | Some o => (Ok o, s)
  | None => (Err InvalidRef, s)
  end.

Definition get_heap : M (gmap loc obj) := λ s, (Ok (heap s), s).

(** The store with the object at [l] replaced by [o]. *)
Definition set_obj (l : loc) (o : obj) (s : state) : state :=
  State (<[l := o]> (heap s)) (calls s).

Definition store (l : loc) (o : obj) : M unit := λ s,
  (Ok (), set_obj l o s).

Definition alloc (o : obj) : M value := λ s,
  let l := fresh (dom (heap s)) in
  (Ok (VRef l), set_obj l o s).

(** ** Python built-in operations, as far as the loader uses them *)

(** [needle in hay] on two strings. *)
Fixpoint is_substring (needle hay : string) : bool :=
  if String.prefix needle hay then true
  else match hay with
       | EmptyString => false
       | String _ rest => is_substring needle rest
       end.

Definition is_str (k : string) (v : value) : bool :=
  match v with
  | VStr s => bool_decide (s = k)
  | _ => false
  end.

(** [bool(v)], read off a store; [None] when the address holds nothing. *)
Definition truthy_in (h : gmap loc obj) (v : value) : option bool :=
  match v with
  | VNone => Some false
  | VBool b => Some b
  | VInt z => Some (negb (z =? 0)%Z)
  | VStr s => Some (negb (Nat.eqb (String.length s) 0))
  | VList xs => Some (negb (Nat.eqb (length xs) 0))
  | VRef l =>
      match h !! l with
      | Some (ODict d) => Some (negb (Nat.eqb (size d) 0))
      | Some (OInst _) => Some true
      | None => None
      end
  end.

Definition truthy (v : value) : M bool := λ s,
  match truthy_in (heap s) v with
  | Some b => (Ok b, s)
  | None => (Err InvalidRef, s)
  end.

(** [k in c]. *)
Definition py_in (k : string) (c : value) : M bool :=
  match c with
  | VRef l =>
      o ← deref l;
      match o with
      | ODict d => mret (bool_decide (is_Some (d !! k)))
      | OInst _ => raise TypeError
      end
  | VStr s => mret (is_substring k s)
  | VList xs => mret (existsb (is_str k) xs)
  | _ => raise TypeError
  end.

(** [c.pop(k)]. *)
Definition py_pop (c : value) (k : string) : M value :=
  match c with
  | VRef l =>
      o ← deref l;
      match o with
      | ODict d =>
          match d !! k with
          | Some v => store l (ODict (delete k d));; mret v
          | None => raise (KeyError k)
          end
      | OInst _ => raise AttributeError
      end
  | VList _ => raise TypeError
  | _ => raise AttributeError
  end.

(** [c.pop(k, dflt)]. *)
Definition py_pop_default (c : value) (k : string) (dflt : value) : M value :=
  match c with
  | VRef l =>
      o ← deref l;
      match o with
      | ODict d =>
          match d !! k with
          | Some v => store l (ODict (delete k d));; mret v
          | None => mret dflt
          end
      | OInst _ => raise AttributeError
      end
  | VList _ => raise TypeError
  | _ => raise AttributeError
  end.

(** [c[k] = v]. *)
Definition py_setitem (c : value) (k : string) (v : value) : M unit :=
  match c with
  | VRef l =>
      o ← deref l;
      match o with
      | ODict d => store l (ODict (<[k := v]> d))
      | OInst _ => raise TypeError
      end
  | _ => raise TypeError
  end.

(** [c[k]]. *)
Definition py_getitem (c : value) (k : string) : M value :=
  match c with
  | VRef l =>
      o ← deref l;
      match o with
      | ODict d =>
          match d !! k with
          | Some v => mret v
          | None => raise (KeyError k)
          end
      | OInst _ => raise TypeError
      end
  | _ => raise TypeError
  end.

(** [c.get(k, dflt)]. *)
Definition py_get (c : value) (k : string) (dflt : value) : M value :=
  match c with
  | VRef l =>
      o ← deref l;
      match o with
      | ODict d => mret (default dflt (d !! k))
      | OInst _ => raise AttributeError
      end
  | _ => raise AttributeError
  end.

(** [c.copy()]: a new dict with the same entries; the values are shared. *)
Definition py_copy (c : value) : M value :=
  match c with
  | VRef l =>
      o ← deref l;
      match o with
      | ODict d => alloc (ODict d)
      | OInst _ => raise AttributeError
      end
  | VList xs => mret (VList xs)
  | _ => raise AttributeError
  end.

(** ** [FireCrawlLoader._prepare_scrape_options] *)

Definition _prepare_scrape_options (params : value) : M value :=
  (* Handle extractor options transformation *)
  has_extractor ← py_in "extractorOptions" params;
  (if has_extractor : bool then
     extractor ← py_pop params "extractorOptions";
     b1 ← py_in "extractionPrompt" extractor;
     (if b1 : bool then
        v ← py_getitem extractor "extractionPrompt";
        py_setitem params "prompt" v
      else mret ());;
     b2 ← py_in "extractionSchema" extractor;
     (if b2 : bool then
        v ← py_getitem extractor "extractionSchema";
        py_setitem params "schema" v
      else mret ());;
     b3 ← py_in "userPrompt" extractor;
     (if b3 : bool then
        v ← py_getitem extractor "userPrompt";
        py_setitem params "prompt" v
      else mret ())
   else mret ());;
  (* Transform include/exclude options to formats *)
  let formats := [] in
  f ← py_pop_default params "includeMarkdown" (VBool true);
  t ← truthy f;
  let formats := if t : bool then (formats ++ [VStr "markdown"])%list else formats in
  f ← py_pop_default params "includeHtml" (VBool false);
  t ← truthy f;
  let formats := if t : bool then (formats ++ [VStr "html"])%list else formats in
  f ← py_pop_default params "includeRawHtml" (VBool false);
  t ← truthy f;
  let formats := if t : bool then (formats ++ [VStr "rawHtml"])%list else formats in
  f ← py_pop_default params "includeExtract" (VBool false);
  t ← truthy f;
  let formats := if t : bool then (formats ++ [VStr "extract"])%list else formats in
  f ← py_pop_default params "includeLinks" (VBool false);
  t ← truthy f;
  let formats := if t : bool then (formats ++ [VStr "links"])%list else formats in
  f ← py_pop_default params "screenshot" (VBool false);
  t ← truthy f;
  let formats := if t : bool then (formats ++ [VStr "screenshot"])%list else formats in
  f ← py_pop_default params "fullPageScreenshot" (VBool false);
  t ← truthy f;
  let formats :=
    if t : bool then (formats ++ [VStr "screenshot@fullPage"])%list else formats in
  (* Transform tag options *)
  b ← py_in "onlyIncludeTags" params;
  (if b : bool then
     v ← py_pop params "onlyIncludeTags"; py_setitem params "includeTags" v
   else mret ());;
  b ← py_in "removeTags" params;
  (if b : bool then
     v ← py_pop params "removeTags"; py_setitem params "excludeTags" v
   else mret ());;
  (* Set formats if not already specified *)
  b ← py_in "formats" params;
  (if negb b && negb (Nat.eqb (length formats) 0) then
     py_setitem params "formats" (VList formats)
   else
     b' ← py_in "formats" params;
     if negb b' then py_setitem params "formats" (VList [VStr "markdown"])
     else mret ());;
  mret params.

(** ** [FireCrawlLoader._prepare_crawler_options] *)

Definition _prepare_crawler_options (params : value) : M value :=
  (* Transform old parameter names to new ones if present *)
  b ← py_in "includes" params;
  (if b : bool then
     v ← py_pop params "includes"; py_setitem params "includePaths" v
   else mret ());;
  b ← py_in "excludes" params;
  (if b : bool then
     v ← py_pop params "excludes"; py_setitem params "excludePaths" v
   else mret ());;
  b ← py_in "allowBackwardCrawling" params;
  (if b : bool then
     v ← py_pop params "allowBackwardCrawling";
     py_setitem params "allowBackwardLinks" v
   else mret ());;
  b ← py_in "allowExternalContentLinks" params;
  (if b : bool then
     v ← py_pop params "allowExternalContentLinks";
     py_setitem params "allowExternalLinks" v
   else mret ());;
  b ← py_in "pageOptions" params;
  (if b : bool then
     p ← py_pop params "pageOptions";
     o ← _prepare_scrape_options p;
     py_setitem params "scrapeOptions" o
   else mret ());;
  mret params.

(** ** The loader and [lazy_load] *)

(** [getattr(o, name, dflt)] for the four attribute names the loader asks
    for ([markdown], [html], [rawHtml], [metadata]): none of them is an
    attribute of a built-in value or of a dict, so only an instance can
    answer with something else than the default. *)
Definition getattr (o : value) (name : string) (dflt : value) : M value :=
  match o with
  | VRef l =>
      ob ← deref l;
      match ob with
      | OInst attrs => mret (default dflt (attrs !! name))
      | ODict _ => mret dflt
      end
  | _ => mret dflt
  end.

(** [x or rest]: [rest] is evaluated only when [x] is falsy. *)
Definition py_or (x : value) (rest : M value) : M value :=
  t ← truthy x;
  if t : bool then mret x else rest.

(** The keyword arguments that [**c] expands to. *)
Definition py_kwargs (c : value) : M dict :=
  match c with
  | VRef l =>
      o ← deref l;
      match o with
      | ODict d => mret d
      | OInst _ => raise TypeError
      end
  | _ => raise TypeError
  end.

(** A string holds the UTF-8 bytes of a Python [str]; a byte [10xxxxxx]
    continues the character before it, any other byte starts one. *)
Definition is_continuation (c : Ascii.ascii) : bool :=
  let n := Ascii.nat_of_ascii c in (128 <=? n)%nat && (n <? 192)%nat.

(** The characters of the string that starts with the bytes [cur] (one
    character so far) and goes on with [s]. *)
Fixpoint chars_from (cur : string) (s : string) : list string :=
  match s with
  | EmptyString => [cur]
  | String c rest =>
      if is_continuation c then chars_from (cur ++ String c EmptyString) rest
      else cur :: chars_from (String c EmptyString) rest
  end.

(** The one-character strings a [for] loop over a [str] visits. *)
Definition chars (s : string) : list value :=
  match s with
  | EmptyString => []
  | String c rest => VStr <$> chars_from (String c EmptyString) rest
  end.

(** The items a [for] loop over [c] visits.  A dict gives its keys in the
    order they were inserted; the store does not record that order, so it
    is the parameter [key_order], asked with the dict's address and
    content. *)
Definition py_iter (key_order : loc → dict → list string) (c : value)
  : M (list value) :=
  match c with
  | VList xs => mret xs
  | VStr s => mret (chars s)
  | VRef l =>
      o ← deref l;
      match o with
      | ODict d => mret (VStr <$> key_order l d)
      | OInst _ => raise TypeError
      end
  | _ => raise TypeError
  end.

Record Document : Type := MkDocument {
  page_content : value;
  metadata : value
}.

(** [Document(page_content=..., metadata=...)]: the class is a pydantic
    model with the fields [page_content: str] and [metadata: dict].  The
    constructor validates both and raises [ValidationError] unless the
    content is a [str] and the metadata a dict; a valid metadata dict is
    built anew from its items. *)
Definition new_Document (page_content metadata : value) : M Document :=
  match page_content, metadata with
  | VStr _, VRef l =>
      o ← deref l;
      match o with
      | ODict d =>
          metadata ← alloc (ODict d);
          mret (MkDocument page_content metadata)
      | OInst _ => raise ValidationError
      end
  | _, _ => raise ValidationError
  end.

(** The loader as [__init__] leaves it: [self.url], [self.mode],
    [self.params]; the client [self.firecrawl] is a parameter of
    [lazy_load]. *)
Record FireCrawlLoader : Type := MkLoader {
  url : string;
  mode : string;
  params : value
}.

Section Loader.

(** The remote client [self.firecrawl]: what a method does with the
    store and what it returns, given its positional and keyword
    arguments.  [py_str] is Python's [str()] on a value, [key_order] the
    insertion order of a dict's keys. *)
Variable remote : string → list value → dict → M value.
Variable py_str : gmap loc obj → value → string.
Variable key_order : loc → dict → list string.

(** A call on the client is recorded, then handed to the client. *)
Definition call_remote (m : string) (args : list value) (kw : dict)
  : M value := λ s,
  remote m args kw (State (heap s) (calls s ++ [RemoteCall m args kw])).

(** The body of the [for doc in firecrawl_docs] loop: [None] is
    [continue], [Some d] is [yield d]. *)
Definition project (mode : string) (doc : value) : M (option Document) :=
  '(page_content, metadata) ←
    (if String.eqb mode "map" || String.eqb mode "extract" then
       metadata ← alloc (ODict ∅);
       mret (doc, metadata)
     else
       (* New ScrapeResponse object format only *)
       markdown ← getattr doc "markdown" VNone;
       page_content ←
         py_or markdown
           (html ← getattr doc "html" VNone;
            py_or html
              (rawHtml ← getattr doc "rawHtml" VNone;
               py_or rawHtml (mret (VStr ""))));
       dflt ← alloc (ODict ∅);
       md ← getattr doc "metadata" dflt;
       metadata ← py_or md (alloc (ODict ∅));
       mret (page_content, metadata));
  t ← truthy page_content;
  if negb t then mret None
  else
    d ← new_Document page_content metadata;
    mret (Some d).

Fixpoint project_all (mode : string) (docs : list value)
  : M (list Document) :=
  match docs with
  | [] => mret []
  | doc :: rest =>
      r ← project mode doc;
      rs ← project_all mode rest;
      mret (match r with Some d => d :: rs | None => rs end)
  end.

(** [list(self.lazy_load())]: the generator run to its end. *)
Definition lazy_load (self : FireCrawlLoader) : M (list Document) :=
  firecrawl_docs ←
    (if String.eqb (mode self) "scrape" then
       p ← py_copy (params self);
       opts ← _prepare_scrape_options p;
       kw ← py_kwargs opts;
       r ← call_remote "scrape_url" [VStr (url self)] kw;
       mret (VList [r])
     else if String.eqb (mode self) "crawl" then
       if String.eqb (url self) "" then
         raise (ValueError "URL is required for crawl mode")
       else
         p ← py_copy (params self);
         opts ← _prepare_crawler_options p;
         kw ← py_kwargs opts;
         crawl_response ← call_remote "crawl_url" [VStr (url self)] kw;
         py_get crawl_response "data" (VList [])
     else if String.eqb (mode self) "map" then
       if String.eqb (url self) "" then
         raise (ValueError "URL is required for map mode")
       else
         kw ← py_kwargs (params self);
         call_remote "map_url" [VStr (url self)] kw
     else if String.eqb (mode self) "extract" then
       if String.eqb (url self) "" then
         raise (ValueError "URL is required for extract mode")
       else
         kw ← py_kwargs (params self);
         r ← call_remote "extract" [VList [VStr (url self)]] kw;
         h ← get_heap;
         mret (VList [VStr (py_str h r)])
     else if String.eqb (mode self) "search" then
       query ← py_get (params self) "query" VNone;
       kw ← py_kwargs (params self);
       (* a keyword given twice is refused before the callee runs *)
       if bool_decide (is_Some (kw !! "query")) then raise TypeError
       else call_remote "search" [] (<["query" := query]> kw)
     else
       raise (ValueError
         ("Invalid mode '" ++ mode self ++ "'." ++ String (Ascii.ascii_of_nat 10) "" ++
          "                Allowed: 'crawl', 'scrape', 'map', 'extract', 'search'.")));
  docs ← py_iter key_order firecrawl_docs;
  project_all (mode self) docs.

End Loader.

(** ** The image-generation wrapper [DallEAPIWrapper] *)

Module DallE.

(** Modelled from the spec: the class
    [langchain_community.utilities.dalle_image_generator.DallEAPIWrapper]
    is not among the sources; only its unit tests are.  The definitions
    of this module follow the specification's Model-Conditional Request
    Builder and its output contract. *)
Record DallEAPIWrapper : Type := MkWrapper {
  model_name : string;
  n : Z;
  size : string;
  quality : string;
  separator : string;
  api_key : string;
  model_kwargs : dict
}.

(** The keyword parameters the builder knows by name. *)
Definition recognized : list string :=
  ["model"; "n"; "size"; "quality"; "separator"; "api_key"].

Definition newer_tier : string := "dall-e-3".
Definition older_tier : string := "dall-e-2".

Definition get_str (kwargs : dict) (k dflt : string) : result string :=
  match kwargs !! k with
  | None => Ok dflt
  | Some (VStr s) => Ok s
  | Some _ => Err (ValueError k)
  end.

Definition get_int (kwargs : dict) (k : string) (dflt : Z) : result Z :=
  match kwargs !! k with
  | None => Ok dflt
  | Some (VInt z) => Ok z
  | Some _ => Err (ValueError k)
  end.

Definition bind_result {A B : Type} (r : result A) (f : A → result B)
  : result B :=
  match r with
  | Ok a => f a
  | Err e => Err e
  end.

Section Builder.

(** The defaults of the named parameters other than the separator, and
    the key found in the ambient environment, if any. *)
Variable default_model default_size default_quality : string.
Variable default_n : Z.
Variable env_api_key : option string.

(** The remote collaborator: the URLs of the generated images in the
    order it reports them, or its failure. *)
Variable generate : dict → result (list string).

(** Modelled from the spec: construction from keyword parameters.  A
    missing credential fails here; a keyword outside [recognized] goes
    to the Extension Map. *)
Definition construct (kwargs : dict) : result DallEAPIWrapper :=
  bind_result (get_str kwargs "model" default_model) (λ model,
  bind_result (get_int kwargs "n" default_n) (λ n,
  bind_result (get_str kwargs "size" default_size) (λ size,
  bind_result (get_str kwargs "quality" default_quality) (λ quality,
  bind_result (get_str kwargs "separator" ",") (λ separator,
  bind_result
    (match kwargs !! "api_key" with
     | Some (VStr k) => Ok k
     | Some _ => Err (ValueError "api_key")
     | None =>
         match env_api_key with
         | Some k => Ok k
         | None => Err (ValueError "Did not find api_key")
         end
     end) (λ key,
  Ok (MkWrapper model n size quality separator key
        (filter (λ kv, kv.1 ∉ recognized) kwargs)))))))).

(** Modelled from the spec: the argument set of the remote call.  The
    Extension Map is merged in last, over the named parameters. *)
Definition request (w : DallEAPIWrapper) (prompt : string) : dict :=
  let base : dict :=
    {[ "prompt" := VStr prompt;
       "model" := VStr (model_name w);
       "n" := VInt (n w);
       "size" := VStr (size w) ]} in
  let base :=
    if bool_decide (model_name w = newer_tier)
    then <["quality" := VStr (quality w)]> base
    else base in
  model_kwargs w ∪ base.


End Builder.

(** Example inputs, after the unit tests. *)
Definition dalle2_hd : dict :=
  {[ "model" := VStr "dall-e-2"; "quality" := VStr "hd";
     "api_key" := VStr "foo" ]}.


End DallE.


(** * The normalisers as functions on the dict they update *)

(** The renaming rule in the specification's words: the old key is removed
    and the new key is set to the old value; nothing happens when the old
    key is absent. *)
Definition spec_rename (old new : string) (d : dict) : dict :=
  match d !! old with
  | Some v => <[new := v]> (delete old d)
  | None => d
  end.

(** The extraction-options sub-rule, given the sub-map. *)
Definition spec_copy_key (src : dict) (from to : string) (d : dict) : dict :=
  match src !! from with
  | Some v => <[to := v]> d
  | None => d
  end.

Definition spec_extract (extractor : option dict) (d : dict) : dict :=
  match extractor with
  | None => d
  | Some e =>
      spec_copy_key e "userPrompt" "prompt"
        (spec_copy_key e "extractionSchema" "schema"
           (spec_copy_key e "extractionPrompt" "prompt"
              (delete "extractorOptions" d)))
  end.

(** The format-derivation table: flag key, default, token. *)
Definition flag_table : list (string * bool * string) :=
  [ ("includeMarkdown", true, "markdown");
    ("includeHtml", false, "html");
    ("includeRawHtml", false, "rawHtml");
    ("includeExtract", false, "extract");
    ("includeLinks", false, "links");
    ("screenshot", false, "screenshot");
    ("fullPageScreenshot", false, "screenshot@fullPage") ].

Definition flag_value (d : dict) (row : string * bool * string) : value :=
  default (VBool row.1.2) (d !! row.1.1).

(** The Format Selector Set: the tokens of the flags that hold, in the
    order of the table. *)
Definition spec_formats (h : gmap loc obj) (d : dict) : list value :=
  omap (λ row,
          if default false (truthy_in h (flag_value d row))
          then Some (VStr row.2) else None)
       flag_table.

Definition spec_drop_flags (d : dict) : dict :=
  foldl (λ acc row, delete row.1.1 acc) d flag_table.

Definition spec_set_formats (formats : list value) (d : dict) : dict :=
  match d !! "formats" with
  | Some _ => d
  | None =>
      <["formats" :=
          VList (match formats with
                 | [] => [VStr "markdown"]
                 | _ => formats
                 end)]> d
  end.

(** Scrape-style normalisation, rule by rule. *)
Definition spec_scrape (h : gmap loc obj) (extractor : option dict)
    (d : dict) : dict :=
  spec_set_formats (spec_formats h d)
    (spec_rename "removeTags" "excludeTags"
       (spec_rename "onlyIncludeTags" "includeTags"
          (spec_drop_flags (spec_extract extractor d)))).

(** What [params["extractorOptions"]] is: absent, or a dict of its own. *)
Inductive extractor_is (s : state) (l : loc) (d : dict)
  : option dict → Prop :=
  | extractor_absent :
      d !! "extractorOptions" = None → extractor_is s l d None
  | extractor_dict le e :
      d !! "extractorOptions" = Some (VRef le) →
      le ≠ l →
      heap s !! le = Some (ODict e) →
      extractor_is s l d (Some e).

(** Every flag has a truth value in the store, and none is the dict that
    is being normalised. *)
Definition flags_ok (s : state) (l : loc) (d : dict) : Prop :=
  Forall (λ row,
            flag_value d row ≠ VRef l ∧
            is_Some (truthy_in (heap s) (flag_value d row)))
         flag_table.

(** Crawl-style normalisation of a map without [pageOptions]. *)
Definition spec_crawl (d : dict) : dict :=
  spec_rename "allowExternalContentLinks" "allowExternalLinks"
    (spec_rename "allowBackwardCrawling" "allowBackwardLinks"
       (spec_rename "excludes" "excludePaths"
          (spec_rename "includes" "includePaths" d))).

(** The renames each normaliser performs. *)
Definition crawl_renames : list (string * string) :=
  [ ("includes", "includePaths");
    ("excludes", "excludePaths");
    ("allowBackwardCrawling", "allowBackwardLinks");
    ("allowExternalContentLinks", "allowExternalLinks") ].

Definition tag_renames : list (string * string) :=
  [ ("onlyIncludeTags", "includeTags");
    ("removeTags", "excludeTags") ].

Definition legacy_renames : list (string * string) :=
  crawl_renames ++ tag_renames.

(** A Configuration Map that holds legacy keys only. *)
Definition only_legacy (d : dict) : Prop :=
  ∀ k, is_Some (d !! k) → k ∈ legacy_renames.*1.

(** [normalise] carries out the renames of [table] on [d], giving [d']. *)
Definition renamed (table : list (string * string)) (d d' : dict) : Prop :=
  Forall (λ r, d' !! r.1 = None ∧ d' !! r.2 = d !! r.1) table.

(** [normalise] leaves the keys of [table] as they are in [d]. *)
Definition not_renamed (table : list (string * string)) (d d' : dict)
  : Prop :=
  Forall (λ r, d' !! r.1 = d !! r.1 ∧ d' !! r.2 = None) table.

(** One normaliser that renames all six legacy keys of any map that holds
    legacy keys only. *)
Definition renames_every_legacy_key (normalise : value → M value) : Prop :=
  ∀ s l d,
    heap s !! l = Some (ODict d) → only_legacy d →
    ∃ d', normalise (VRef l) s = (Ok (VRef l), set_obj l (ODict d') s) ∧
          renamed legacy_renames d d'.

(** A store with one dict at address 1. *)
Definition store_of (d : dict) : state :=
  State {[ 1%positive := ODict d ]} [].

(** The content fields of a Response Record, in priority order. *)
Definition content_fields : list string := ["markdown"; "html"; "rawHtml"].

(** The first field that is present and non-empty (truthy). *)
Definition spec_content (h : gmap loc obj) (attrs : dict)
  : option value :=
  List.find (λ v, default false (truthy_in h v))
    (omap (λ f, attrs !! f) content_fields).

(** The attributes of a record: its [metadata] mapping, or the empty
    mapping. *)
Definition spec_attributes (h : gmap loc obj) (attrs : dict)
  : dict :=
  match attrs !! "metadata" with
  | Some (VRef lm) =>
      match h !! lm with
      | Some (ODict dm) => dm
      | _ => ∅
      end
  | _ => ∅
  end.

(** An optional text: a string or [None]. *)
Definition is_text (v : value) : bool :=
  match v with
  | VNone | VStr _ => true
  | _ => false
  end.

(** An optional mapping: a dict of the store or [None]. *)
Definition is_mapping (h : gmap loc obj) (v : value) : bool :=
  match v with
  | VNone => true
  | VRef lm =>
      match h !! lm with
      | Some (ODict _) => true
      | _ => false
      end
  | _ => false
  end.

(** The fields of a content-bearing Response Record: every content field
    is absent or an optional text, and [metadata] is absent or an optional
    mapping. *)
Definition record_ok (h : gmap loc obj) (attrs : dict) : bool :=
  forallb (λ f, from_option is_text true (attrs !! f)) content_fields
  && from_option (is_mapping h) true (attrs !! "metadata").

(** The Projected Unit of a record, if it has one: its content and its
    attributes. *)
Definition spec_unit (h : gmap loc obj) (attrs : dict)
  : option (value * dict) :=
  c ← spec_content h attrs; Some (c, spec_attributes h attrs).

(** The response holds, at address [r.1], an instance with the fields
    [r.2] of a content-bearing record. *)
Definition record_at (h : gmap loc obj) (r : loc * dict) : Prop :=
  h !! r.1 = Some (OInst r.2) ∧ record_ok h r.2 = true.

(** The document [dc] is the unit [u]: its content is [u.1], its metadata
    a dict of the store with the items [u.2]. *)
Definition emits (h : gmap loc obj) (dc : Document) (u : value * dict)
  : Prop :=
  page_content dc = u.1 ∧
  ∃ lm, metadata dc = VRef lm ∧ h !! lm = Some (ODict u.2).


(** A caller's [params] with a nested [pageOptions] map: the outer dict at
    address 1, the nested one at address 2. *)
Definition nested_params : state :=
  State {[ 1%positive := ODict {[ "pageOptions" := VRef 2 ]};
           2%positive := ODict {[ "includeHtml" := VBool true ]} ]} [].

(** A remote client that answers every call with a new empty dict. *)
Definition empty_response : string → list value → dict → M value :=
  λ _ _ _, alloc (ODict ∅).


(** Example inputs. *)
Definition legacy_example : dict :=
  {[ "includes" := VList [VStr "/blog/*"];
     "removeTags" := VList [VStr "nav"] ]}.

Definition html_only : dict :=
  {[ "includeHtml" := VBool true; "includeMarkdown" := VBool false ]}.

Definition extractor_example : state :=
  State {[ 1%positive := ODict {[ "extractorOptions" := VRef 2 ]};
           2%positive := ODict {[ "extractionPrompt" := VStr "old";
                                  "userPrompt" := VStr "new";
                                  "extractionSchema" := VStr "schema" ]} ]} [].

Definition html_record : state :=
  State {[ 1%positive := OInst {[ "markdown" := VStr "";
                                  "html" := VStr "<p>hi</p>" ]} ]} [].

(** An insertion order for the examples: the keys as the map lists them. *)
Definition listing_order (l : loc) (d : dict) : list string :=
  (map_to_list d).*1.

(** A response of three records: one whose [markdown] is empty and whose
    [html] is not, one with nothing to show, one with every field. *)
Definition three_records : state :=
  State {[ 1%positive := OInst {[ "markdown" := VStr "";
                                  "html" := VStr "<p>hi</p>" ]};
           2%positive := OInst {[ "markdown" := VNone;
                                  "html" := VStr "";
                                  "metadata" := VNone ]};
           3%positive := OInst {[ "markdown" := VStr "# Title";
                                  "html" := VStr "<h1>Title</h1>";
                                  "rawHtml" := VStr "<html/>";
                                  "metadata" := VRef 4 ]};
           4%positive := ODict {[ "title" := VStr "Title" ]} ]} [].

Definition search_loader : FireCrawlLoader :=
  MkLoader "https://firecrawl.dev" "search" (VRef 1).

Definition crawl_loader : FireCrawlLoader :=
  MkLoader "https://firecrawl.dev" "crawl" (VRef 1).


(** * Definitions for the further properties *)

(** The tokens a derived [formats] list is made of, in table order. *)
Definition format_tokens : list value := (λ row, VStr row.2) <$> flag_table.

(** The keys that scrape-style normalisation reads or writes. *)
Definition scrape_rule_keys : list string :=
  ["extractorOptions"; "prompt"; "schema"; "formats"]
  ++ flag_table.*1.*1 ++ tag_renames.*1 ++ tag_renames.*2.

(** The nested map holds no reference back to the dict at [l]. *)
Definition no_ref_to (l : positive) (d : gmap string value) : Prop :=
  ∀ k, d !! k ≠ Some (VRef l).

(** The keys that crawl-style normalisation reads or writes. *)
Definition crawl_rule_keys : list string :=
  crawl_renames.*1 ++ crawl_renames.*2 ++ ["pageOptions"; "scrapeOptions"].

(** What [params["pageOptions"]] is: absent, or a dict that scrape-style
    normalisation accepts. *)
Inductive page_options_is (s : state) (d : gmap string value) : Prop :=
  | page_absent :
      d !! "pageOptions" = None → page_options_is s d
  | page_dict lp dp e :
      d !! "pageOptions" = Some (VRef lp) →
      heap s !! lp = Some (ODict dp) →
      extractor_is s lp dp e →
      flags_ok s lp dp →
      page_options_is s d.

(** The outcome of a rename when the canonical key may be there already. *)
Definition overrides (table : list (string * string))
    (d d' : gmap string value) : Prop :=
  Forall (λ r, d' !! r.1 = None ∧
               d' !! r.2 = match d !! r.1 with
                           | Some v => Some v
                           | None => d !! r.2
                           end) table.

(** A value on which the dict operations of the normalisers fail: anything
    but a reference, or a reference to an instance. *)
Definition not_a_dict (h : gmap positive obj) (p : value) : Prop :=
  match p with
  | VRef l => ∃ attrs, h !! l = Some (OInst attrs)
  | _ => True
  end.

(** The exception scrape-style normalisation ends with on such a value:
    a string has no [pop], everything else fails earlier or on [pop]'s
    arguments. *)
Definition scrape_error (p : value) : exn :=
  match p with
  | VStr _ => AttributeError
  | _ => TypeError
  end.

(** [s'] has every object of [s] and the same record of remote calls:
    between the two only new objects were created. *)
Definition extends (s s' : state) : Prop :=
  calls s' = calls s ∧ ∀ l0 o, heap s !! l0 = Some o → heap s' !! l0 = Some o.

(** A computation that at most creates new objects. *)
Definition only_allocates {A : Type} (m : M A) : Prop :=
  ∀ s r s', m s = (r, s') → extends s s'.

(** A record that is no instance: a built-in value or a dict. *)
Definition plain_record (h : gmap positive obj) (doc : value) : Prop :=
  match doc with
  | VRef l => ∃ d, h !! l = Some (ODict d)
  | _ => True
  end.

(** ** [FireCrawlLoader.__init__] *)

(** How construction ends: with a loader, with the [ImportError] of the
    missing [firecrawl] package, or with another exception. *)
Inductive init_result (A : Type) : Type :=
  | Constructed (a : A)
  | ImportError (msg : string)
  | Raised (e : exn).
Arguments Constructed {A} a.
Arguments ImportError {A} msg.
Arguments Raised {A} e.

(** The modes [__init__] accepts. *)
Definition allowed_modes : list string :=
  ["crawl"; "scrape"; "search"; "map"; "extract"].

Section Init.

(** Whether [from firecrawl import FirecrawlApp] succeeds;
    [langchain_core.utils.get_from_env]; the constructor of the client. *)
Variable firecrawl_installed : bool.
Variable get_from_env : string → string → result string.
Variable client : Type.
Variable FirecrawlApp : string → option string → result client.

Definition __init__ (url : string) (api_key api_url : option string)
    (mode : string) (params : value)
  : state → init_result (FireCrawlLoader * client) * state := λ s,
  if negb firecrawl_installed then
    (ImportError
       "`firecrawl` package not found, please run `pip install firecrawl-py`",
     s)
  else if negb (bool_decide (mode ∈ allowed_modes)) then
    (Raised (ValueError
       ("Invalid mode '" ++ mode ++ "'." ++ String (Ascii.ascii_of_nat 10) "" ++
        "                Allowed: 'crawl', 'scrape', 'search', 'map', 'extract'.")),
     s)
  else if String.eqb url "" then
    (Raised (ValueError "Url must be provided"), s)
  else
    (* api_key or get_from_env("api_key", "FIRECRAWL_API_KEY") *)
    match (match api_key with
           | Some k =>
               if String.eqb k "" then
                 get_from_env "api_key" "FIRECRAWL_API_KEY"
               else Ok k
           | None => get_from_env "api_key" "FIRECRAWL_API_KEY"
           end) with
    | Err e => (Raised e, s)
    | Ok key =>
        match FirecrawlApp key api_url with
        | Err e => (Raised e, s)
        | Ok firecrawl =>
            (* self.params = params or {} *)
            match py_or params (alloc (ODict ∅)) s with
            | (Ok p, s') => (Constructed (MkLoader url mode p, firecrawl), s')
            | (Err e, s') => (Raised e, s')
            end
        end
    end.

End Init.

(** ** The fake client of the unit tests *)

Module FakeOpenAI.

Record FakeOpenAIResponseData : Type := MkData { url : string }.

Record FakeOpenAIResponse : Type := MkResponse {
  data : list FakeOpenAIResponseData
}.

(** [f"https://example.com/image_{i}.png"]. *)
Definition image_url (i : nat) : string :=
  "https://example.com/image_" ++ pretty i ++ ".png".

(** [FakeImages.generate] on its keyword arguments.  [kwargs["n"] > 1] is
    defined on integers and booleans and raises [TypeError] on the other
    values. *)
Definition generate (kwargs : gmap string value) : result FakeOpenAIResponse :=
  let single := MkResponse [MkData "https://example.com/image.png"] in
  match kwargs !! "n" with
  | Some (VInt n) =>
      if (1 <? n)%Z then
        let urls := image_url <$> seq 0 (Z.to_nat n) in
        Ok (MkResponse (MkData <$> urls))
      else Ok single
  | Some (VBool _) => Ok single
  | Some _ => Err TypeError
  | None => Ok single
  end.

End FakeOpenAI.

Definition timeout_example : gmap string value :=
  {[ "timeout" := VInt 30; "includeHtml" := VBool true ]}.

Definition both_tags_example : gmap string value :=
  {[ "onlyIncludeTags" := VStr "main"; "includeTags" := VStr "article" ]}.

Definition bad_page_example : gmap string value :=
  {[ "pageOptions" := VStr "onlyMainContent" ]}.

Definition scrape_loader : FireCrawlLoader :=
  MkLoader "https://firecrawl.dev" "scrape" (VRef 1).

Definition map_loader : FireCrawlLoader :=
  MkLoader "https://firecrawl.dev" "map" (VRef 1).

Definition extract_loader : FireCrawlLoader :=
  MkLoader "https://firecrawl.dev" "extract" (VRef 1).

(** A remote client that answers every call with three links, one empty. *)
Definition links_response : string → list value → gmap string value → M value :=
  λ _ _ _, mret (VList (VStr <$> ["https://a.dev"; ""; "https://b.dev"])).

(** A dict and a string as records. *)
Definition plain_records : state :=
  State {[ 1%positive := ODict {[ "markdown" := VStr "# Title" ]} ]} [].

(** * Running the primitives on a store *)

Section Exec.

Implicit Types (s : state) (l : loc) (d : dict) (o : obj) (k : string)
  (v : value).

Lemma bind_run {A B : Type} (m : M A) (f : A → M B) s :
  (m ≫= f) s =
  match m s with
  | (Ok a, s') => f a s'
  | (Err e, s') => (Err e, s')
  end.
Proof. reflexivity. Qed.

Lemma ret_run {A : Type} (a : A) s : mret (M := M) a s = (Ok a, s).
Proof. reflexivity. Qed.

Lemma set_obj_id l o s : heap s !! l = Some o → set_obj l o s = s.
Proof.
  destruct s as [h c]; unfold set_obj; cbn; intros H.
  by rewrite insert_id.
Qed.

Lemma set_obj_twice l o1 o2 s :
  set_obj l o2 (set_obj l o1 s) = set_obj l o2 s.
Proof. unfold set_obj; cbn. by rewrite insert_insert_eq. Qed.

Lemma heap_set_obj_eq l o s : heap (set_obj l o s) !! l = Some o.
Proof. unfold set_obj; cbn. apply lookup_insert_eq. Qed.

Lemma heap_set_obj_ne l l' o s :
  l ≠ l' → heap (set_obj l o s) !! l' = heap s !! l'.
Proof. intros H. unfold set_obj; cbn. by apply lookup_insert_ne. Qed.

Lemma calls_set_obj l o s : calls (set_obj l o s) = calls s.
Proof. reflexivity. Qed.

Lemma py_in_run k l d s :
  heap s !! l = Some (ODict d) →
  py_in k (VRef l) s = (Ok (bool_decide (is_Some (d !! k))), s).
Proof. intros H. unfold py_in, deref. rewrite bind_run, H. reflexivity. Qed.

Lemma py_pop_run k l d v s :
  heap s !! l = Some (ODict d) → d !! k = Some v →
  py_pop (VRef l) k s = (Ok v, set_obj l (ODict (delete k d)) s).
Proof.
  intros H Hk. unfold py_pop, deref. rewrite bind_run, H, Hk. reflexivity.
Qed.

Lemma py_pop_default_run k l d dflt s :
  heap s !! l = Some (ODict d) →
  py_pop_default (VRef l) k dflt s =
  (Ok (default dflt (d !! k)), set_obj l (ODict (delete k d)) s).
Proof.
  intros H. unfold py_pop_default, deref. rewrite bind_run, H.
  destruct (d !! k) as [v|] eqn:Hk; cbn.
  - reflexivity.
  - rewrite delete_id by done. by rewrite set_obj_id.
Qed.

Lemma py_setitem_run k l d v s :
  heap s !! l = Some (ODict d) →
  py_setitem (VRef l) k v s = (Ok (), set_obj l (ODict (<[k := v]> d)) s).
Proof. intros H. unfold py_setitem, deref. rewrite bind_run, H. reflexivity. Qed.

Lemma py_getitem_run k l d v s :
  heap s !! l = Some (ODict d) → d !! k = Some v →
  py_getitem (VRef l) k s = (Ok v, s).
Proof.
  intros H Hk. unfold py_getitem, deref. rewrite bind_run, H, Hk.
  reflexivity.
Qed.

Lemma py_get_run k l d dflt s :
  heap s !! l = Some (ODict d) →
  py_get (VRef l) k dflt s = (Ok (default dflt (d !! k)), s).
Proof. intros H. unfold py_get, deref. rewrite bind_run, H. reflexivity. Qed.

Lemma py_kwargs_run l d s :
  heap s !! l = Some (ODict d) → py_kwargs (VRef l) s = (Ok d, s).
Proof. intros H. unfold py_kwargs, deref. rewrite bind_run, H. reflexivity. Qed.

Lemma py_copy_run l d s :
  heap s !! l = Some (ODict d) →
  py_copy (VRef l) s =
  (Ok (VRef (fresh (dom (heap s)))),
   set_obj (fresh (dom (heap s))) (ODict d) s).
Proof. intros H. unfold py_copy, deref. rewrite bind_run, H. reflexivity. Qed.

Lemma fresh_loc_unused s : heap s !! fresh (dom (heap s)) = None.
Proof. apply not_elem_of_dom, is_fresh. Qed.

(** Truthiness does not look at an address other than the value's own. *)
Lemma truthy_in_insert_ne h l o v :
  v ≠ VRef l → truthy_in (<[l := o]> h) v = truthy_in h v.
Proof.
  intros H. destruct v as [| | | | |l']; try reflexivity.
  cbn. rewrite lookup_insert_ne; [done|congruence].
Qed.

Lemma truthy_run v b s :
  truthy_in (heap s) v = Some b → truthy v s = (Ok b, s).
Proof. intros H. unfold truthy. by rewrite H. Qed.

End Exec.

Section Normalisers.

Implicit Types (s : state) (l : loc) (d : dict) (k : string) (v : value).

Lemma spec_rename_lookup_old old new d :
  old ≠ new → spec_rename old new d !! old = None.
Proof.
  intros H. unfold spec_rename. destruct (d !! old) eqn:E; [|done].
  by rewrite lookup_insert_ne, lookup_delete_eq.
Qed.

Lemma spec_rename_lookup_new old new d :
  spec_rename old new d !! new =
  match d !! old with Some v => Some v | None => d !! new end.
Proof.
  unfold spec_rename. destruct (d !! old) eqn:E; [|done].
  by rewrite lookup_insert_eq.
Qed.

Lemma spec_rename_lookup_ne old new d k :
  k ≠ old → k ≠ new → spec_rename old new d !! k = d !! k.
Proof.
  intros H1 H2. unfold spec_rename. destruct (d !! old) eqn:E; [|done].
  by rewrite lookup_insert_ne, lookup_delete_ne.
Qed.

Lemma spec_extract_lookup e d k :
  k ≠ "extractorOptions" → k ≠ "prompt" → k ≠ "schema" →
  spec_extract e d !! k = d !! k.
Proof.
  intros H1 H2 H3. destruct e as [e|]; [|done].
  unfold spec_extract, spec_copy_key.
  repeat case_match;
    rewrite ?lookup_insert_ne, ?lookup_delete_ne by done; done.
Qed.

Lemma spec_set_formats_lookup_ne formats d k :
  k ≠ "formats" → spec_set_formats formats d !! k = d !! k.
Proof.
  intros H. unfold spec_set_formats. destruct (d !! "formats"); [done|].
  by rewrite lookup_insert_ne.
Qed.

(** [if old in params: params[new] = params.pop(old)], after the test. *)
Lemma rename_body_run old new l d s (p := VRef l) :
  (if bool_decide (is_Some (d !! old))
   then v ← py_pop p old; py_setitem p new v else mret ())
    (set_obj l (ODict d) s)
  = (Ok (), set_obj l (ODict (spec_rename old new d)) s).
Proof.
  subst p. unfold spec_rename. destruct (d !! old) as [v|] eqn:Hold.
  - rewrite bool_decide_eq_true_2 by eauto.
    rewrite bind_run, (py_pop_run _ _ d v) by (done || apply heap_set_obj_eq).
    rewrite (py_setitem_run _ _ (delete old d)) by apply heap_set_obj_eq.
    by rewrite !set_obj_twice.
  - by rewrite bool_decide_eq_false_2 by (intros [? ?]; congruence).
Qed.

(** [if from in extractor: params[to] = extractor[from]], after the
    test. *)
Lemma copy_body_run l le d e from to s :
  le ≠ l → heap s !! le = Some (ODict e) →
  (if bool_decide (is_Some (e !! from))
   then v ← py_getitem (VRef le) from; py_setitem (VRef l) to v
   else mret ()) (set_obj l (ODict d) s)
  = (Ok (), set_obj l (ODict (spec_copy_key e from to d)) s).
Proof.
  intros Hne He. unfold spec_copy_key.
  destruct (e !! from) as [v|] eqn:Hv.
  - rewrite bool_decide_eq_true_2 by eauto.
    rewrite bind_run, (py_getitem_run _ _ e v);
      [|by rewrite heap_set_obj_ne|done].
    rewrite (py_setitem_run _ _ d) by apply heap_set_obj_eq.
    by rewrite set_obj_twice.
  - by rewrite bool_decide_eq_false_2 by (intros [? ?]; congruence).
Qed.

(** [if params.pop(k, dflt): ...], up to the test. *)
Lemma flag_run {B : Type} k dflt l d s (K : bool → M B) b (p := VRef l) :
  default dflt (d !! k) ≠ VRef l →
  truthy_in (heap s) (default dflt (d !! k)) = Some b →
  (f ← py_pop_default p k dflt; t ← truthy f; K t) (set_obj l (ODict d) s)
  = K b (set_obj l (ODict (delete k d)) s).
Proof.
  intros Hne Ht. subst p.
  rewrite bind_run, (py_pop_default_run _ _ d) by apply heap_set_obj_eq.
  rewrite set_obj_twice.
  rewrite bind_run, (truthy_run _ b); [done|].
  cbn. by rewrite truthy_in_insert_ne.
Qed.

(** The extractor options block of [_prepare_scrape_options]. *)
Lemma extractor_run {B : Type} l d e s (K : M B) (p := VRef l) :
  heap s !! l = Some (ODict d) →
  extractor_is s l d e →
  (has_extractor ← py_in "extractorOptions" p;
   (if has_extractor : bool then
      extractor ← py_pop p "extractorOptions";
      b1 ← py_in "extractionPrompt" extractor;
      (if b1 : bool then
         v ← py_getitem extractor "extractionPrompt";
         py_setitem p "prompt" v
       else mret ());;
      b2 ← py_in "extractionSchema" extractor;
      (if b2 : bool then
         v ← py_getitem extractor "extractionSchema";
         py_setitem p "schema" v
       else mret ());;
      b3 ← py_in "userPrompt" extractor;
      (if b3 : bool then
         v ← py_getitem extractor "userPrompt";
         py_setitem p "prompt" v
       else mret ())
    else mret ());; K) s
  = K (set_obj l (ODict (spec_extract e d)) s).
Proof.
  intros H He. subst p.
  rewrite bind_run, (py_in_run _ _ d) by done.
  destruct He as [Habs | le e Hd Hne Hle].
  - rewrite bool_decide_eq_false_2 by (intros [? ?]; congruence).
    rewrite bind_run, ret_run. cbn. by rewrite set_obj_id.
  - rewrite bool_decide_eq_true_2 by eauto.
    rewrite bind_run. rewrite bind_run.
    rewrite (py_pop_run _ _ d (VRef le)) by done.
    rewrite bind_run, (py_in_run _ _ e) by (by rewrite heap_set_obj_ne).
    rewrite bind_run, copy_body_run by done.
    rewrite bind_run, (py_in_run _ _ e) by (by rewrite heap_set_obj_ne).
    rewrite bind_run, copy_body_run by done.
    rewrite bind_run, (py_in_run _ _ e) by (by rewrite heap_set_obj_ne).
    rewrite copy_body_run by done.
    reflexivity.
Qed.

(** The closing [formats] block of [_prepare_scrape_options]. *)
Lemma formats_run l d formats s (p := VRef l) :
  (b ← py_in "formats" p;
   (if negb b && negb (Nat.eqb (length formats) 0) then
      py_setitem p "formats" (VList formats)
    else
      b' ← py_in "formats" p;
      if negb b' then py_setitem p "formats" (VList [VStr "markdown"])
      else mret ());;
   mret p) (set_obj l (ODict d) s)
  = (Ok p, set_obj l (ODict (spec_set_formats formats d)) s).
Proof.
  subst p. rewrite bind_run, (py_in_run _ _ d) by apply heap_set_obj_eq.
  unfold spec_set_formats. destruct (d !! "formats") as [v|] eqn:Hv.
  - rewrite bool_decide_eq_true_2 by eauto. cbn [negb andb].
    rewrite !bind_run, (py_in_run _ _ d) by apply heap_set_obj_eq.
    by rewrite bool_decide_eq_true_2 by eauto.
  - rewrite bool_decide_eq_false_2 by (intros [? ?]; congruence).
    cbn [negb andb]. destruct formats as [|x xs]; cbn [length Nat.eqb negb].
    + rewrite !bind_run, (py_in_run _ _ d) by apply heap_set_obj_eq.
      rewrite bool_decide_eq_false_2 by (intros [? ?]; congruence).
      cbn [negb]. rewrite (py_setitem_run _ _ d) by apply heap_set_obj_eq.
      by rewrite set_obj_twice.
    + rewrite bind_run, (py_setitem_run _ _ d) by apply heap_set_obj_eq.
      by rewrite set_obj_twice.
Qed.

Local Ltac flag_step b :=
  rewrite (flag_run _ _ _ _ _ _ b);
  [ | rewrite ?lookup_delete_ne, ?spec_extract_lookup by done;
      assumption .. ].

(** [_prepare_scrape_options] on a dict computes [spec_scrape] in place. *)
Lemma prepare_scrape_run s l d e :
  heap s !! l = Some (ODict d) → extractor_is s l d e → flags_ok s l d →
  _prepare_scrape_options (VRef l) s
  = (Ok (VRef l), set_obj l (ODict (spec_scrape (heap s) e d)) s).
Proof.
  intros H He Hf. unfold _prepare_scrape_options.
  rewrite (extractor_run l d e) by done.
  unfold flags_ok, flag_table, flag_value in Hf.
  repeat match type of Hf with
         | Forall _ (_ :: _) =>
             let Hne := fresh "Hne" in
             let b := fresh "b" in
             let Hb := fresh "Hb" in
             apply Forall_cons in Hf as [[Hne [b Hb]] Hf]
         end.
  clear Hf. cbn [fst snd] in *.
  flag_step b. flag_step b0. flag_step b1. flag_step b2. flag_step b3.
  flag_step b4. flag_step b5.
  rewrite bind_run, (py_in_run _ _ _) by apply heap_set_obj_eq.
  rewrite bind_run, rename_body_run.
  rewrite bind_run, (py_in_run _ _ _) by apply heap_set_obj_eq.
  rewrite bind_run, rename_body_run.
  rewrite formats_run.
  unfold spec_scrape, spec_drop_flags, spec_formats, flag_table, flag_value.
  cbn [foldl omap fst snd list_omap].
  rewrite Hb, Hb0, Hb1, Hb2, Hb3, Hb4, Hb5.
  do 3 f_equal. f_equal.
  by destruct b, b0, b1, b2, b3, b4, b5.
Qed.

(** [_prepare_crawler_options] on a dict without [pageOptions] computes
    [spec_crawl] in place. *)
Lemma prepare_crawler_run s l d :
  heap s !! l = Some (ODict d) → d !! "pageOptions" = None →
  _prepare_crawler_options (VRef l) s
  = (Ok (VRef l), set_obj l (ODict (spec_crawl d)) s).
Proof.
  intros H Hp. unfold _prepare_crawler_options.
  rewrite <- (set_obj_id l (ODict d) s) at 1 by done.
  do 4 (rewrite bind_run, (py_in_run _ _ _) by apply heap_set_obj_eq;
        rewrite bind_run, rename_body_run).
  rewrite bind_run, (py_in_run _ _ _) by apply heap_set_obj_eq.
  rewrite bool_decide_eq_false_2; [reflexivity|].
  rewrite !spec_rename_lookup_ne by done. rewrite Hp. by intros [? ?].
Qed.

End Normalisers.


(** * Legacy keys, formats and extraction options *)

Section NormaliserClaims.

Implicit Types (s : state) (l : loc) (d : dict) (k : string) (v : value).

Lemma only_legacy_other d k :
  only_legacy d → k ∉ legacy_renames.*1 → d !! k = None.
Proof.
  intros H Hk. destruct (d !! k) eqn:E; [|done].
  exfalso. apply Hk, H. eauto.
Qed.

Lemma not_legacy k :
  Forall (λ k', k ≠ k') legacy_renames.*1 → k ∉ legacy_renames.*1.
Proof. intros H Hin. rewrite Forall_forall in H. by apply (H k). Qed.

Local Ltac other_key H :=
  apply (only_legacy_other _ _ H), not_legacy;
  repeat constructor; discriminate.

Lemma only_legacy_extractor s l d : only_legacy d → extractor_is s l d None.
Proof. intros H. constructor. other_key H. Qed.

Lemma only_legacy_flags s l d : only_legacy d → flags_ok s l d.
Proof.
  intros H. unfold flags_ok, flag_table, flag_value.
  repeat constructor; cbn [fst snd];
    match goal with
    | |- context [d !! ?k] =>
        assert (d !! k = None) as -> by other_key H
    end; cbn; eauto; discriminate.
Qed.

Lemma spec_drop_flags_lookup d k :
  Forall (λ row, k ≠ row.1.1) flag_table →
  spec_drop_flags d !! k = d !! k.
Proof.
  intros H. unfold spec_drop_flags, flag_table in *.
  repeat match type of H with
         | Forall _ (_ :: _) =>
             let Hk := fresh "Hk" in apply Forall_cons in H as [Hk H]
         end.
  cbn [foldl fst snd] in *. by rewrite !lookup_delete_ne.
Qed.

Lemma spec_drop_flags_gone d :
  Forall (λ row, spec_drop_flags d !! row.1.1 = None) flag_table.
Proof.
  unfold spec_drop_flags, flag_table. cbn [foldl fst snd].
  repeat constructor; cbn [fst snd];
    rewrite ?lookup_delete_ne by done; apply lookup_delete_eq.
Qed.

Lemma set_obj_inj l d d' s :
  set_obj l (ODict d') s = set_obj l (ODict d) s → d' = d.
Proof.
  intros H. apply (f_equal (λ st, heap st !! l)) in H.
  rewrite !heap_set_obj_eq in H. congruence.
Qed.

(** C1 (as amended): on a map that holds legacy keys only, crawl-style
    normalisation renames the four crawler keys and leaves the two tag keys
    as they are, and scrape-style normalisation renames the two tag keys
    and leaves the four crawler keys as they are; a canonical key gets the
    value of its legacy key, and stays absent when the legacy key is. *)
Theorem legacy_renames_by_normaliser s l d :
  heap s !! l = Some (ODict d) → only_legacy d →
  (∃ d', _prepare_crawler_options (VRef l) s
           = (Ok (VRef l), set_obj l (ODict d') s) ∧
         renamed crawl_renames d d' ∧ not_renamed tag_renames d d') ∧
  (∃ d', _prepare_scrape_options (VRef l) s
           = (Ok (VRef l), set_obj l (ODict d') s) ∧
         renamed tag_renames d d' ∧ not_renamed crawl_renames d d').
Proof.
  intros H Hd. split.
  - exists (spec_crawl d). split.
    { apply prepare_crawler_run; [done|]. other_key Hd. }
    unfold renamed, not_renamed, crawl_renames, tag_renames, spec_crawl.
    split; repeat constructor; cbn [fst snd].
    all: rewrite ?spec_rename_lookup_ne by done.
    all: try (by apply spec_rename_lookup_old).
    all: try (rewrite spec_rename_lookup_new, ?spec_rename_lookup_ne by done).
    all: try done.
    all: try (destruct (d !! _) eqn:E; [done|]).
    all: try other_key Hd.
  - exists (spec_scrape (heap s) None d). split.
    { apply prepare_scrape_run;
        [done|by apply only_legacy_extractor|by apply only_legacy_flags]. }
    unfold renamed, not_renamed, crawl_renames, tag_renames, spec_scrape.
    cbn [spec_extract].
    split; repeat constructor; cbn [fst snd].
    all: rewrite spec_set_formats_lookup_ne by done.
    all: rewrite ?spec_rename_lookup_ne by done.
    all: try (by apply spec_rename_lookup_old).
    all: try (rewrite spec_rename_lookup_new, ?spec_rename_lookup_ne by done).
    all: rewrite ?spec_drop_flags_lookup by (repeat constructor; done).
    all: try done.
    all: try (destruct (d !! _) eqn:E; [done|]).
    all: try other_key Hd.
Qed.

(** C1 (as stated) fails: neither normaliser renames all six legacy keys.
    Crawl-style normalisation keeps [removeTags], scrape-style
    normalisation keeps [includes]. *)
Lemma no_normaliser_renames_every_legacy_key :
  ¬ renames_every_legacy_key _prepare_crawler_options ∧
  ¬ renames_every_legacy_key _prepare_scrape_options.
Proof.
  assert (Hlegacy : ∀ k v, k ∈ legacy_renames.*1 →
            only_legacy ({[ k := v ]} : gmap string value)).
  { intros k v Hk k' [v' Hk']. by apply lookup_singleton_Some in Hk' as [<- _]. }
  split; intros H.
  - set (d := {[ "removeTags" := VStr "nav" ]} : gmap string value).
    destruct (H (store_of d) 1%positive d) as (d' & Hrun & Hren).
    + reflexivity.
    + apply Hlegacy. apply list_elem_of_In; cbn; auto 10.
    + rewrite (prepare_crawler_run _ _ d) in Hrun by done.
      apply (f_equal snd), eq_sym in Hrun. cbn [snd] in Hrun.
      apply set_obj_inj in Hrun. subst d'.
      unfold renamed in Hren. rewrite Forall_forall in Hren.
      destruct (Hren ("removeTags", "excludeTags")) as [Hgone _].
      { apply list_elem_of_In; cbn; auto 10. }
      vm_compute in Hgone. discriminate.
  - set (d := {[ "includes" := VStr "/blog" ]} : gmap string value).
    assert (Hd : only_legacy d) by (apply Hlegacy; apply list_elem_of_In; cbn; auto 10).
    destruct (H (store_of d) 1%positive d) as (d' & Hrun & Hren).
    + reflexivity.
    + done.
    + rewrite (prepare_scrape_run _ _ d None) in Hrun;
        [|done|by apply only_legacy_extractor|by apply only_legacy_flags].
      apply (f_equal snd), eq_sym in Hrun. cbn [snd] in Hrun.
      apply set_obj_inj in Hrun. subst d'.
      unfold renamed in Hren. rewrite Forall_forall in Hren.
      destruct (Hren ("includes", "includePaths")) as [Hgone _].
      { apply list_elem_of_In; cbn; auto 10. }
      vm_compute in Hgone. discriminate.
Qed.

Lemma only_legacy_intro (d : gmap string value) :
  Forall (λ kv, kv.1 ∈ legacy_renames.*1) (map_to_list d) → only_legacy d.
Proof.
  intros H k [v Hk]. rewrite Forall_forall in H.
  apply (H (k, v)). by apply elem_of_map_to_list.
Qed.

Lemma spec_scrape_lookup_flags h e d :
  Forall (λ row, spec_scrape h e d !! row.1.1 = None) flag_table.
Proof.
  unfold spec_scrape.
  pose proof (spec_drop_flags_gone (spec_extract e d)) as H.
  unfold flag_table in *.
  repeat match type of H with
         | Forall _ (_ :: _) =>
             let Hk := fresh "Hk" in apply Forall_cons in H as [Hk H]
         end.
  cbn [fst snd] in *.
  repeat constructor; cbn [fst snd];
    rewrite spec_set_formats_lookup_ne, !spec_rename_lookup_ne by done;
    assumption.
Qed.

Lemma spec_scrape_lookup_other h e d k :
  k ≠ "formats" →
  Forall (λ r, k ≠ r.1 ∧ k ≠ r.2) tag_renames →
  Forall (λ row, k ≠ row.1.1) flag_table →
  spec_scrape h e d !! k = spec_extract e d !! k.
Proof.
  intros Hf Ht Hfl. unfold spec_scrape, tag_renames in *.
  apply Forall_cons in Ht as [[? ?] Ht]. apply Forall_cons in Ht as [[? ?] _].
  cbn [fst snd] in *.
  rewrite spec_set_formats_lookup_ne, !spec_rename_lookup_ne by done.
  by apply spec_drop_flags_lookup.
Qed.

Lemma spec_scrape_lookup_formats h e d :
  spec_scrape h e d !! "formats" =
  match d !! "formats" with
  | Some v => Some v
  | None => Some (VList (match spec_formats h d with
                         | [] => [VStr "markdown"]
                         | fs => fs
                         end))
  end.
Proof.
  unfold spec_scrape, spec_set_formats.
  rewrite !spec_rename_lookup_ne by done.
  rewrite spec_drop_flags_lookup by (repeat constructor; done).
  rewrite spec_extract_lookup by done.
  destruct (d !! "formats") as [v|] eqn:E.
  - rewrite !spec_rename_lookup_ne by done.
    rewrite spec_drop_flags_lookup by (repeat constructor; done).
    by rewrite spec_extract_lookup.
  - destruct (spec_formats h d); apply lookup_insert_eq.
Qed.

(** C2: scrape-style normalisation removes the flag keys and, when the
    map has no [formats] key, sets it to the tokens of the flags that hold,
    in table order, or to [["markdown"]] when there is none; a [formats]
    key of the input is kept; the empty map becomes
    [{"formats": ["markdown"]}]. *)
Theorem formats_derivation :
  (∀ s l d e,
     heap s !! l = Some (ODict d) → extractor_is s l d e → flags_ok s l d →
     ∃ d', _prepare_scrape_options (VRef l) s
             = (Ok (VRef l), set_obj l (ODict d') s) ∧
           Forall (λ row, d' !! row.1.1 = None) flag_table ∧
           d' !! "formats" =
             match d !! "formats" with
             | Some v => Some v
             | None =>
                 Some (VList (match spec_formats (heap s) d with
                              | [] => [VStr "markdown"]
                              | fs => fs
                              end))
             end) ∧
  (∀ s l,
     heap s !! l = Some (ODict ∅) →
     _prepare_scrape_options (VRef l) s
     = (Ok (VRef l),
        set_obj l (ODict {[ "formats" := VList [VStr "markdown"] ]}) s)).
Proof.
  split.
  - intros s l d e H He Hf. exists (spec_scrape (heap s) e d).
    split; [by apply prepare_scrape_run|].
    split; [apply spec_scrape_lookup_flags|apply spec_scrape_lookup_formats].
  - intros s l H.
    rewrite (prepare_scrape_run s l ∅ None); [done|done|..].
    + constructor. apply lookup_empty.
    + unfold flags_ok, flag_table, flag_value.
      repeat constructor; cbn; rewrite ?lookup_empty; cbn; eauto; discriminate.
Qed.

(** C6: with both [extractionPrompt] and [userPrompt] in the
    [extractorOptions] sub-map, normalisation removes [extractorOptions],
    sets [prompt] to the [userPrompt] value, and copies [extractionSchema],
    when present, to [schema]. *)
Theorem user_prompt_wins s l d le e p u :
  heap s !! l = Some (ODict d) →
  d !! "extractorOptions" = Some (VRef le) →
  le ≠ l →
  heap s !! le = Some (ODict e) →
  e !! "extractionPrompt" = Some p →
  e !! "userPrompt" = Some u →
  flags_ok s l d →
  ∃ d', _prepare_scrape_options (VRef l) s
          = (Ok (VRef l), set_obj l (ODict d') s) ∧
        d' !! "extractorOptions" = None ∧
        d' !! "prompt" = Some u ∧
        d' !! "schema" =
          match e !! "extractionSchema" with
          | Some sc => Some sc
          | None => d !! "schema"
          end.
Proof.
  intros H Hd Hne He Hp Hu Hf. exists (spec_scrape (heap s) (Some e) d).
  split; [apply prepare_scrape_run; [done|by econstructor|done]|].
  rewrite !spec_scrape_lookup_other by (repeat constructor; done).
  unfold spec_extract, spec_copy_key. rewrite Hp, Hu.
  repeat split.
  - rewrite lookup_insert_ne by done.
    destruct (e !! "extractionSchema");
      rewrite ?lookup_insert_ne by done; apply lookup_delete_eq.
  - apply lookup_insert_eq.
  - rewrite lookup_insert_ne by done.
    destruct (e !! "extractionSchema").
    + apply lookup_insert_eq.
    + by rewrite lookup_insert_ne, lookup_delete_ne.
Qed.

End NormaliserClaims.

(** * The result projector *)

Section Projector.
Implicit Types (s : state) (l : loc) (d : dict) (v : value).

Lemma getattr_inst_run l attrs name dflt s :
  heap s !! l = Some (OInst attrs) →
  getattr (VRef l) name dflt s = (Ok (default dflt (attrs !! name)), s).
Proof. intros H. unfold getattr, deref. rewrite bind_run, H. reflexivity. Qed.

Lemma py_or_run x rest b s :
  truthy_in (heap s) x = Some b →
  py_or x rest s = if b then (Ok x, s) else rest s.
Proof.
  intros H. unfold py_or. rewrite bind_run, (truthy_run _ b) by done.
  by destruct b.
Qed.

Lemma truthy_in_insert_fresh h l o v b :
  h !! l = None → truthy_in h v = Some b →
  truthy_in (<[l := o]> h) v = Some b.
Proof.
  intros Hl Hv. rewrite truthy_in_insert_ne; [done|].
  intros ->. cbn in Hv. by rewrite Hl in Hv.
Qed.

Lemma field_truth h (attrs : gmap string value) (f : string) :
  (∀ v, attrs !! f = Some v → is_Some (truthy_in h v)) →
  truthy_in h (default VNone (attrs !! f))
  = Some (match attrs !! f with
          | Some v => default false (truthy_in h v)
          | None => false
          end).
Proof.
  intros H. destruct (attrs !! f) as [v|]; [|done].
  cbn. by destruct (H v eq_refl) as [b ->].
Qed.

Lemma content_run {B : Type} s l attrs (K : value → M B) (doc := VRef l) :
  heap s !! l = Some (OInst attrs) →
  Forall (λ f, ∀ v, attrs !! f = Some v → is_Some (truthy_in (heap s) v))
         content_fields →
  (markdown ← getattr doc "markdown" VNone;
   page_content ←
     py_or markdown
       (html ← getattr doc "html" VNone;
        py_or html
          (rawHtml ← getattr doc "rawHtml" VNone;
           py_or rawHtml (mret (VStr ""))));
   K page_content) s
  = K (default (VStr "") (spec_content (heap s) attrs)) s.
Proof.
  intros H Hf. subst doc. unfold content_fields in Hf.
  apply Forall_cons in Hf as [H1 Hf]. apply Forall_cons in Hf as [H2 Hf].
  apply Forall_cons in Hf as [H3 _].
  apply field_truth in H1, H2, H3.
  unfold spec_content, content_fields. cbn [omap list_omap].
  rewrite bind_run, (getattr_inst_run _ attrs) by done.
  rewrite bind_run, (py_or_run _ _ _ _ H1).
  destruct (attrs !! "markdown") as [a|] eqn:E1; cbn [default find];
    [destruct (default false (truthy_in (heap s) a)) eqn:T1; [done|]|].
  all: rewrite bind_run, (getattr_inst_run _ attrs) by done.
  all: rewrite (py_or_run _ _ _ _ H2).
  all: destruct (attrs !! "html") as [b|] eqn:E2; cbn [default find];
    [destruct (default false (truthy_in (heap s) b)) eqn:T2; [done|]|].
  all: rewrite bind_run, (getattr_inst_run _ attrs) by done.
  all: rewrite (py_or_run _ _ _ _ H3).
  all: destruct (attrs !! "rawHtml") as [c|] eqn:E3; cbn [default find];
    [destruct (default false (truthy_in (heap s) c)) eqn:T3; done|done].
Qed.

Lemma truthy_in_mono (h h' : gmap positive obj) v b :
  (∀ l0 o, h !! l0 = Some o → h' !! l0 = Some o) →
  truthy_in h v = Some b → truthy_in h' v = Some b.
Proof.
  intros Hsub Hv. destruct v as [| | | | |l0]; try done.
  cbn in *. destruct (h !! l0) as [o|] eqn:E; [|done].
  by rewrite (Hsub _ _ E).
Qed.

Lemma set_obj_fresh_extends s o l0 o0 :
  heap s !! l0 = Some o0 →
  heap (set_obj (fresh (dom (heap s))) o s) !! l0 = Some o0.
Proof.
  intros H. rewrite heap_set_obj_ne; [done|].
  intros <-. by rewrite fresh_loc_unused in H.
Qed.

Lemma metadata_run s l attrs (doc := VRef l) :
  heap s !! l = Some (OInst attrs) →
  (attrs !! "metadata" = None ∨
   attrs !! "metadata" = Some VNone ∨
   ∃ lm dm, attrs !! "metadata" = Some (VRef lm) ∧
            heap s !! lm = Some (ODict dm)) →
  ∃ lm s',
    (∀ (B : Type) (K : value → M B),
       (dflt ← alloc (ODict ∅);
        md ← getattr doc "metadata" dflt;
        metadata ← py_or md (alloc (ODict ∅));
        K metadata) s = K (VRef lm) s') ∧
    calls s' = calls s ∧
    (∀ l0 o, heap s !! l0 = Some o → heap s' !! l0 = Some o) ∧
    heap s' !! lm = Some (ODict (spec_attributes (heap s) attrs)).
Proof.
  intros H Hm. subst doc.
  set (l1 := fresh (dom (heap s))).
  set (s1 := set_obj l1 (ODict ∅) s).
  set (l2 := fresh (dom (heap s1))).
  set (s2 := set_obj l2 (ODict ∅) s1).
  assert (H1 : heap s1 !! l = Some (OInst attrs))
    by by apply set_obj_fresh_extends.
  assert (Hl1 : heap s1 !! l1 = Some (ODict ∅)) by apply heap_set_obj_eq.
  assert (Hext2 : ∀ l0 o, heap s !! l0 = Some o → heap s2 !! l0 = Some o).
  { intros l0 o Hl0. by do 2 apply set_obj_fresh_extends. }
  assert (Hrun : ∀ (B : Type) (K : value → M B),
            (dflt ← alloc (ODict ∅);
             md ← getattr (VRef l) "metadata" dflt;
             metadata ← py_or md (alloc (ODict ∅));
             K metadata) s
            = (metadata ← py_or (default (VRef l1) (attrs !! "metadata"))
                            (alloc (ODict ∅));
               K metadata) s1).
  { intros B K. rewrite bind_run. change (alloc (ODict ∅) s) with (Ok (VRef l1), s1).
    cbv iota beta. by rewrite bind_run, (getattr_inst_run _ attrs) by done. }
  unfold spec_attributes.
  destruct Hm as [Hm | [Hm | (lm & dm & Hm & Hlm)]]; rewrite Hm.
  - exists l2, s2. split; [|split; [done|split; [done|apply heap_set_obj_eq]]].
    intros B K. rewrite Hrun, Hm. cbn [default].
    rewrite bind_run, (py_or_run _ _ false).
    + reflexivity.
    + unfold truthy_in. by rewrite Hl1.
  - exists l2, s2. split; [|split; [done|split; [done|apply heap_set_obj_eq]]].
    intros B K. rewrite Hrun, Hm. cbn [default].
    by rewrite bind_run, (py_or_run _ _ false).
  - rewrite Hlm.
    assert (Hlm1 : heap s1 !! lm = Some (ODict dm))
      by by apply set_obj_fresh_extends.
    destruct (Nat.eqb (size dm) 0) eqn:Esz.
    + exists l2, s2. split; [|split; [done|split; [done|]]].
      * intros B K. rewrite Hrun, Hm. cbn [default].
        rewrite bind_run, (py_or_run _ _ false); [reflexivity|].
        unfold id, truthy_in. by rewrite Hlm1, Esz.
      * apply Nat.eqb_eq, map_size_empty_iff in Esz. subst dm.
        apply heap_set_obj_eq.
    + exists lm, s1. split; [|split; [done|split; [|done]]].
      * intros B K. rewrite Hrun, Hm. cbn [default].
        rewrite bind_run, (py_or_run _ _ true); [reflexivity|].
        unfold id, truthy_in. by rewrite Hlm1, Esz.
      * intros l0 o Hl0. by apply set_obj_fresh_extends.
Qed.

Implicit Types (h : gmap loc obj) (attrs : dict).

Lemma new_Document_run s t lm dm :
  heap s !! lm = Some (ODict dm) →
  new_Document (VStr t) (VRef lm) s
  = (Ok (MkDocument (VStr t) (VRef (fresh (dom (heap s))))),
     set_obj (fresh (dom (heap s))) (ODict dm) s).
Proof.
  intros H. unfold new_Document, deref. rewrite bind_run, H. reflexivity.
Qed.

Lemma text_truth h v : is_text v = true → is_Some (truthy_in h v).
Proof. destruct v; try done; cbn; eauto. Qed.

Lemma text_truth_stable h h' v :
  is_text v = true → truthy_in h' v = truthy_in h v.
Proof. by destruct v. Qed.

Lemma record_ok_fields h attrs :
  record_ok h attrs = true →
  Forall (λ f, ∀ v, attrs !! f = Some v → is_text v = true) content_fields ∧
  (attrs !! "metadata" = None ∨
   attrs !! "metadata" = Some VNone ∨
   ∃ lm dm, attrs !! "metadata" = Some (VRef lm) ∧ h !! lm = Some (ODict dm)).
Proof.
  unfold record_ok. intros [Hf Hm]%andb_prop. split.
  - rewrite forallb_forall in Hf. apply Forall_forall. intros f Hin v Hv.
    apply list_elem_of_In, Hf in Hin. by rewrite Hv in Hin.
  - destruct (attrs !! "metadata") as [v|]; [|by left]. right.
    destruct v as [| | | | |lm]; try done; [by left|]. right.
    cbn in Hm. destruct (h !! lm) as [[dm|]|] eqn:E; try done. eauto.
Qed.

Lemma field_values h attrs :
  Forall (λ f, ∀ v, attrs !! f = Some v → is_text v = true) content_fields →
  Forall (λ v, is_text v = true) (omap (λ f, attrs !! f) content_fields).
Proof.
  intros Hf. apply Forall_forall. intros v (f & Hin & Hv)%list_elem_of_omap.
  rewrite Forall_forall in Hf. by apply (Hf f).
Qed.

Lemma spec_content_text h attrs c :
  Forall (λ f, ∀ v, attrs !! f = Some v → is_text v = true) content_fields →
  spec_content h attrs = Some c →
  ∃ t, c = VStr t ∧ truthy_in h c = Some true.
Proof.
  intros Hf%(field_values h). unfold spec_content. intros [Hin Ht]%find_some.
  rewrite Forall_forall in Hf. apply list_elem_of_In, Hf in Hin.
  destruct c as [| | |t| |]; try done. exists t. split; [done|].
  cbn in *. by rewrite Ht.
Qed.

Lemma find_ext_Forall {A : Type} (f g : A → bool) (xs : list A) :
  Forall (λ x, f x = g x) xs → List.find f xs = List.find g xs.
Proof.
  induction 1 as [|x xs Hx _ IH]; [done|]. cbn. by rewrite Hx, IH.
Qed.

Lemma record_stable h h' attrs :
  (∀ l0 o, h !! l0 = Some o → h' !! l0 = Some o) →
  record_ok h attrs = true →
  spec_unit h' attrs = spec_unit h attrs ∧ record_ok h' attrs = true.
Proof.
  intros Hsub Hok. destruct (record_ok_fields _ _ Hok) as [Hf Hm].
  assert (Hc : spec_content h' attrs = spec_content h attrs).
  { unfold spec_content. apply find_ext_Forall.
    eapply Forall_impl; [exact (field_values h _ Hf)|].
    intros v Hv. cbv beta. by rewrite (text_truth_stable h h'). }
  assert (Ha : spec_attributes h' attrs = spec_attributes h attrs
               ∧ from_option (is_mapping h') true (attrs !! "metadata") = true).
  { unfold spec_attributes.
    destruct Hm as [Hm | [Hm | (lm & dm & Hm & Hlm)]]; rewrite Hm; try done.
    cbn. by rewrite Hlm, (Hsub _ _ Hlm). }
  destruct Ha as [Ha Hm']. split.
  - unfold spec_unit. by rewrite Hc, Ha.
  - unfold record_ok in *. apply andb_prop in Hok as [Hok _].
    by rewrite Hok, Hm'.
Qed.

Lemma records_stable h h' (recs : list (loc * dict)) :
  (∀ l0 o, h !! l0 = Some o → h' !! l0 = Some o) →
  Forall (record_at h) recs →
  Forall (record_at h') recs ∧
  omap (λ r, spec_unit h' r.2) recs = omap (λ r, spec_unit h r.2) recs.
Proof.
  intros Hsub. induction 1 as [|[l attrs] recs [Hl Hok] _ [IH1 IH2]]; [done|].
  destruct (record_stable h h' attrs Hsub Hok) as [Hu Hok']. split.
  - constructor; [|done]. split; [by apply Hsub|done].
  - cbn [omap list_omap snd] in *. by rewrite Hu, IH2.
Qed.

Lemma emits_stable h h' dc u :
  (∀ l0 o, h !! l0 = Some o → h' !! l0 = Some o) →
  emits h dc u → emits h' dc u.
Proof. intros Hsub [Hc (lm & Hm & Hlm)]. split; [done|]. eauto. Qed.

(** One turn of the loop on a content-bearing record. *)
Lemma project_record_run mode s l attrs :
  mode ≠ "map" → mode ≠ "extract" →
  record_at (heap s) (l, attrs) →
  ∃ s', extends s s' ∧
    match spec_unit (heap s) attrs with
    | Some u => ∃ dc, project mode (VRef l) s = (Ok (Some dc), s') ∧
                      emits (heap s') dc u
    | None => project mode (VRef l) s = (Ok None, s')
    end.
Proof.
  intros Hmap Hext [H Hok]. cbn [fst snd] in *.
  destruct (record_ok_fields _ _ Hok) as [Hf Hm].
  destruct (metadata_run s l attrs H Hm) as (lm & s1 & Hrun & Hc & Hsub & Hlm).
  assert (Hproj : project mode (VRef l) s
    = (t ← truthy (default (VStr "") (spec_content (heap s) attrs));
       if negb t then mret None
       else
         dc ← new_Document (default (VStr "") (spec_content (heap s) attrs))
                (VRef lm);
         mret (Some dc)) s1).
  { unfold project.
    rewrite (proj2 (String.eqb_neq _ _) Hmap), (proj2 (String.eqb_neq _ _) Hext).
    cbn [orb]. rewrite bind_run.
    rewrite (content_run s l attrs); [by rewrite Hrun|done|].
    eapply Forall_impl; [exact Hf|]. intros f Hv v Hfv.
    by apply text_truth, Hv. }
  rewrite Hproj. clear Hproj. unfold spec_unit.
  destruct (spec_content (heap s) attrs) as [c|] eqn:Ec; cbn [default].
  - destruct (spec_content_text _ _ _ Hf Ec) as (t & -> & Ht).
    exists (set_obj (fresh (dom (heap s1)))
              (ODict (spec_attributes (heap s) attrs)) s1).
    split; [split; [done|]|].
    { intros l0 o Hl0. by apply set_obj_fresh_extends, Hsub. }
    eexists. split.
    + rewrite bind_run, (truthy_run _ true) by done. cbn [negb]. unfold id.
      by rewrite bind_run, (new_Document_run _ _ _ _ Hlm).
    + split; [done|]. eexists. split; [done|]. apply heap_set_obj_eq.
  - exists s1. split; [done|].
    by rewrite bind_run, (truthy_run _ false).
Qed.

(** C4: run over a response of content-bearing records (each content field
    absent, [None] or a string, [metadata] absent, [None] or a dict), the
    projector's loop yields, in the order of the response, one document for
    each record that has a present and non-empty field among [markdown],
    [html], [rawHtml]: its content is the first such field, its metadata a
    dict with the items of the record's [metadata], or an empty dict when
    that is absent or [None].  A record without such a field gives no
    document.  Nothing else changes in the store and no remote call is
    made. *)
Theorem projector_content_priority mode (recs : list (loc * dict)) s :
  mode ≠ "map" → mode ≠ "extract" →
  Forall (record_at (heap s)) recs →
  ∃ ds s',
    project_all mode ((λ r, VRef r.1) <$> recs) s = (Ok ds, s') ∧
    extends s s' ∧
    Forall2 (emits (heap s')) ds (omap (λ r, spec_unit (heap s) r.2) recs).
Proof.
  intros Hmap Hext. revert s.
  induction recs as [|[l attrs] recs IH]; intros s Hrecs.
  { exists [], s. by repeat split. }
  apply Forall_cons in Hrecs as [Hr Hrecs].
  destruct (project_record_run mode s l attrs Hmap Hext Hr)
    as (s1 & [Hc1 Hsub1] & Hp).
  destruct (records_stable _ (heap s1) recs Hsub1 Hrecs) as [Hrecs1 Hspec].
  destruct (IH s1 Hrecs1) as (ds & s' & Hrun & [Hc Hsub] & Hds).
  rewrite Hspec in Hds.
  assert (Hext' : extends s s').
  { split; [congruence|]. intros l0 o Hl0. by apply Hsub, Hsub1. }
  cbn [fmap list_fmap project_all omap list_omap fst snd].
  destruct (spec_unit (heap s) attrs) as [u|].
  - destruct Hp as (dc & Hp & Hdc). exists (dc :: ds), s'.
    split; [by rewrite bind_run, Hp, bind_run, Hrun|]. split; [done|].
    constructor; [|done]. by eapply emits_stable.
  - exists ds, s'.
    split; [by rewrite bind_run, Hp, bind_run, Hrun|]. by split.
Qed.

(** Content that is truthy and not a string is refused by the constructor
    of the document. *)
Lemma project_other_content mode s l attrs v :
  mode ≠ "map" → mode ≠ "extract" →
  heap s !! l = Some (OInst attrs) →
  attrs !! "markdown" = Some v →
  attrs !! "metadata" = None →
  is_text v = false →
  truthy_in (heap s) v = Some true →
  ∃ s', project mode (VRef l) s = (Err ValidationError, s').
Proof.
  intros Hmap Hext H Hv Hmeta Htext Ht.
  destruct (metadata_run s l attrs H (or_introl Hmeta))
    as (lm & s1 & Hrun & Hc & Hsub & Hlm).
  exists s1. unfold project.
  rewrite (proj2 (String.eqb_neq _ _) Hmap), (proj2 (String.eqb_neq _ _) Hext).
  cbn [orb]. rewrite !bind_run, (getattr_inst_run _ attrs), Hv by done.
  cbn [default]. rewrite !bind_run, (py_or_run _ _ true) by done.
  cbv beta iota. rewrite Hrun. rewrite ret_run. unfold id. cbv beta iota.
  rewrite bind_run, (truthy_run _ true) by by eapply truthy_in_mono.
  cbn [negb]. rewrite bind_run. by destruct v.
Qed.

End Projector.

(** * The loader *)

Section LoaderClaims.

Variable remote : string → list value → dict → M value.
Variable py_str : gmap loc obj → value → string.
Variable key_order : loc → dict → list string.

Implicit Types (s : state) (l : loc) (d : dict) (v : value).

Lemma bind_ok_inv {A B : Type} (m : M A) (f : A → M B) s b s' :
  (m ≫= f) s = (Ok b, s') →
  ∃ a s0, m s = (Ok a, s0) ∧ f a s0 = (Ok b, s').
Proof.
  rewrite bind_run. destruct (m s) as [[a|e] s0]; [eauto|discriminate].
Qed.

(** C9: in [search] mode with a [query] key in [params], [lazy_load]
    raises the duplicate-keyword [TypeError] whatever the remote client is,
    and leaves the store and the record of remote calls as they were: the
    remote search is never called. *)
Theorem search_query_given_twice self s l d q :
  mode self = "search" →
  params self = VRef l →
  heap s !! l = Some (ODict d) →
  d !! "query" = Some q →
  lazy_load remote py_str key_order self s = (Err TypeError, s).
Proof.
  intros Hmode Hp H Hq. unfold lazy_load. rewrite Hmode, Hp.
  rewrite !(proj2 (String.eqb_neq "search" _)) by done.
  rewrite String.eqb_refl.
  rewrite !bind_run, (py_get_run _ _ d) by done.
  rewrite bind_run, (py_kwargs_run _ d) by done.
  rewrite bool_decide_eq_true_2 by eauto. reflexivity.
Qed.

(** C10: in [crawl] mode, when the remote crawl answers with a mapping
    that has no [data] key, [lazy_load] yields no document and does not
    raise. *)
Theorem crawl_without_data self s opts s1 kw lr s2 dr :
  mode self = "crawl" →
  url self ≠ "" →
  (p ← py_copy (params self); _prepare_crawler_options p) s = (Ok opts, s1) →
  py_kwargs opts s1 = (Ok kw, s1) →
  call_remote remote "crawl_url" [VStr (url self)] kw s1 = (Ok (VRef lr), s2) →
  heap s2 !! lr = Some (ODict dr) →
  dr !! "data" = None →
  lazy_load remote py_str key_order self s = (Ok [], s2).
Proof.
  intros Hmode Hurl Hnorm Hkw Hcall Hlr Hdata.
  apply bind_ok_inv in Hnorm as (p & s0 & Hcopy & Hprep).
  unfold lazy_load. rewrite Hmode.
  rewrite (proj2 (String.eqb_neq "crawl" "scrape")) by done.
  rewrite String.eqb_refl.
  rewrite (proj2 (String.eqb_neq _ _) Hurl).
  rewrite !bind_run, Hcopy. rewrite bind_run, Hprep.
  rewrite bind_run, Hkw. rewrite bind_run, Hcall.
  rewrite (py_get_run _ _ dr) by done. rewrite Hdata. reflexivity.
Qed.

End LoaderClaims.

Lemma extractor_is_fresh s l d e o :
  extractor_is s l d e →
  extractor_is (set_obj (fresh (dom (heap s))) o s) (fresh (dom (heap s))) d e.
Proof.
  intros [Habs | le e' Hd Hne Hle].
  - by constructor.
  - assert (le ≠ fresh (dom (heap s))).
    { intros ->. by rewrite fresh_loc_unused in Hle. }
    econstructor; [done|done|]. by rewrite heap_set_obj_ne.
Qed.

Lemma flags_ok_fresh s l d o :
  flags_ok s l d →
  flags_ok (set_obj (fresh (dom (heap s))) o s) (fresh (dom (heap s))) d.
Proof.
  unfold flags_ok. intros Hf. eapply Forall_impl; [exact Hf|].
  intros row [_ [b Hb]]. cbv beta. split.
  - intros Hv. rewrite Hv in Hb. cbn in Hb.
    by rewrite fresh_loc_unused in Hb.
  - exists b. apply truthy_in_insert_fresh; [apply fresh_loc_unused|done].
Qed.

(** X20: in [scrape] mode the copy shields every object of the caller,
    nested dicts included: the normaliser only writes to the new dict. *)
Lemma scrape_copy_frame s l d e :
  heap s !! l = Some (ODict d) → extractor_is s l d e → flags_ok s l d →
  ∃ s',
    (p ← py_copy (VRef l); _prepare_scrape_options p) s
      = (Ok (VRef (fresh (dom (heap s)))), s') ∧
    calls s' = calls s ∧
    ∀ l0 o, heap s !! l0 = Some o → heap s' !! l0 = Some o.
Proof.
  intros H He Hf. eexists. split; [|split].
  - rewrite bind_run, (py_copy_run _ d) by done.
    rewrite (prepare_scrape_run _ _ d e);
      [|apply heap_set_obj_eq|by apply (extractor_is_fresh _ l)
       |by apply (flags_ok_fresh _ l)].
    rewrite set_obj_twice. reflexivity.
  - reflexivity.
  - intros l0 o Hl0. by apply set_obj_fresh_extends.
Qed.

(** C3 fails on the code: [self.params.copy()] is a shallow copy, so the
    nested [pageOptions] dict that crawl-style normalisation hands to
    [_prepare_scrape_options] is the caller's own object.  After
    normalisation (and after [lazy_load]) the caller's nested map has lost
    [includeHtml] and gained [formats]; only the outer dict is protected. *)
Lemma crawl_normalisation_mutates_nested_map :
  ∃ s',
    (p ← py_copy (VRef 1); _prepare_crawler_options p) nested_params
      = (Ok (VRef 3), s') ∧
    heap nested_params !! 2%positive
      = Some (ODict {[ "includeHtml" := VBool true ]}) ∧
    heap s' !! 2%positive
      = Some (ODict {[ "formats" := VList [VStr "markdown"; VStr "html"] ]}) ∧
    heap s' !! 1%positive = Some (ODict {[ "pageOptions" := VRef 2 ]}) ∧
    ∃ s'',
      lazy_load empty_response (λ _ _, "") listing_order
        (MkLoader "https://firecrawl.dev" "crawl" (VRef 1)) nested_params
        = (Ok [], s'') ∧
      heap s'' !! 2%positive
        = Some (ODict {[ "formats" := VList [VStr "markdown"; VStr "html"] ]}).
Proof.
  eexists. split; [vm_compute; reflexivity|].
  repeat split; try (vm_compute; reflexivity).
  eexists. split; vm_compute; reflexivity.
Qed.

(** * Instances of the theorems *)

Lemma legacy_renames_by_normaliser_witness :
  (∃ d', _prepare_crawler_options (VRef 1) (store_of legacy_example)
           = (Ok (VRef 1), set_obj 1 (ODict d') (store_of legacy_example)) ∧
         renamed crawl_renames legacy_example d' ∧
         not_renamed tag_renames legacy_example d') ∧
  (∃ d', _prepare_scrape_options (VRef 1) (store_of legacy_example)
           = (Ok (VRef 1), set_obj 1 (ODict d') (store_of legacy_example)) ∧
         renamed tag_renames legacy_example d' ∧
         not_renamed crawl_renames legacy_example d').
Proof.
  apply legacy_renames_by_normaliser; [reflexivity|].
  apply only_legacy_intro. vm_compute.
  repeat (constructor; [apply list_elem_of_In; cbn; auto 10|]). constructor.
Defined.

Lemma formats_derivation_witness :
  ∃ d', _prepare_scrape_options (VRef 1) (store_of html_only)
          = (Ok (VRef 1), set_obj 1 (ODict d') (store_of html_only)) ∧
        Forall (λ row, d' !! row.1.1 = None) flag_table ∧
        d' !! "formats" = Some (VList [VStr "html"]).
Proof.
  apply (proj1 formats_derivation (store_of html_only) 1%positive html_only
           None); [reflexivity|constructor; reflexivity|].
  unfold flags_ok, flag_table. repeat constructor; try discriminate;
    vm_compute; eauto.
Defined.

Lemma user_prompt_wins_witness :
  ∃ d', _prepare_scrape_options (VRef 1) extractor_example
          = (Ok (VRef 1), set_obj 1 (ODict d') extractor_example) ∧
        d' !! "extractorOptions" = None ∧
        d' !! "prompt" = Some (VStr "new") ∧
        d' !! "schema" = Some (VStr "schema").
Proof.
  destruct (user_prompt_wins extractor_example 1%positive
              {[ "extractorOptions" := VRef 2 ]} 2%positive
              {[ "extractionPrompt" := VStr "old"; "userPrompt" := VStr "new";
                 "extractionSchema" := VStr "schema" ]}
              (VStr "old") (VStr "new"))
    as (d' & Hrun & Hgone & Hprompt & Hschema);
    try reflexivity; [lia| |].
  - unfold flags_ok, flag_table. repeat constructor; try discriminate;
      vm_compute; eauto.
  - exists d'. repeat split; assumption.
Defined.

Lemma projector_content_priority_witness :
  ∃ ds s',
    project_all "crawl" [VRef 1; VRef 2; VRef 3] three_records = (Ok ds, s') ∧
    extends three_records s' ∧
    Forall2 (emits (heap s')) ds
      [(VStr "<p>hi</p>", ∅);
       (VStr "# Title", {[ "title" := VStr "Title" ]})].
Proof.
  destruct (projector_content_priority "crawl"
              [(1%positive, {[ "markdown" := VStr "";
                               "html" := VStr "<p>hi</p>" ]});
               (2%positive, {[ "markdown" := VNone;
                               "html" := VStr "";
                               "metadata" := VNone ]});
               (3%positive, {[ "markdown" := VStr "# Title";
                               "html" := VStr "<h1>Title</h1>";
                               "rawHtml" := VStr "<html/>";
                               "metadata" := VRef 4 ]})]
              three_records)
    as (ds & s' & Hrun & Hext & Hds); [discriminate|discriminate| |].
  - repeat constructor.
  - exists ds, s'. split; [exact Hrun|]. split; [exact Hext|exact Hds].
Defined.

Lemma search_query_given_twice_witness :
  lazy_load empty_response (λ _ _, "") listing_order search_loader
    (store_of {[ "query" := VStr "firecrawl" ]})
  = (Err TypeError, store_of {[ "query" := VStr "firecrawl" ]}).
Proof.
  apply (search_query_given_twice _ _ _ search_loader _ 1%positive
           {[ "query" := VStr "firecrawl" ]} (VStr "firecrawl"));
    reflexivity.
Defined.

Lemma crawl_without_data_witness :
  ∃ s2, lazy_load empty_response (λ _ _, "") listing_order crawl_loader
          (store_of {[ "limit" := VInt 5 ]}) = (Ok [], s2).
Proof.
  eexists.
  eapply (crawl_without_data empty_response (λ _ _, "") listing_order crawl_loader
            (store_of {[ "limit" := VInt 5 ]}));
    [reflexivity|discriminate|vm_compute; reflexivity|vm_compute; reflexivity
    |vm_compute; reflexivity|vm_compute; reflexivity|reflexivity].
Defined.

(** * The image-generation wrapper *)

Module DallEClaims.
Import DallE.

Section BuilderClaims.

Variable default_model default_size default_quality : string.
Variable default_n : Z.
Variable env_api_key : option string.
Variable generate : dict → result (list string).

Local Abbreviation construct :=
  (DallE.construct default_model default_size default_quality default_n
     env_api_key).

Lemma bind_result_ok {A B : Type} (r : result A) (f : A → result B) b :
  bind_result r f = Ok b → ∃ a, r = Ok a ∧ f a = Ok b.
Proof. destruct r; [eauto|discriminate]. Qed.

Lemma construct_ok kwargs w :
  construct kwargs = Ok w →
  get_str kwargs "model" default_model = Ok (model_name w) ∧
  get_str kwargs "quality" default_quality = Ok (quality w) ∧
  get_str kwargs "separator" "," = Ok (separator w) ∧
  model_kwargs w = filter (λ kv, kv.1 ∉ recognized) kwargs.
Proof.
  unfold DallE.construct. intros H.
  apply bind_result_ok in H as (m & Hm & H).
  apply bind_result_ok in H as (n & Hn & H).
  apply bind_result_ok in H as (sz & Hsz & H).
  apply bind_result_ok in H as (q & Hq & H).
  apply bind_result_ok in H as (sep & Hsep & H).
  apply bind_result_ok in H as (key & Hkey & H).
  injection H as <-. done.
Qed.

Lemma recognized_not_extension kwargs w k :
  construct kwargs = Ok w → k ∈ recognized → model_kwargs w !! k = None.
Proof.
  intros H Hk. apply construct_ok in H as (_ & _ & _ & ->).
  apply map_lookup_filter_None. right. intros v _ Hn. by apply Hn.
Qed.

Lemma get_str_insert_ne kwargs k v k' dflt :
  k ≠ k' → get_str (<[k := v]> kwargs) k' dflt = get_str kwargs k' dflt.
Proof. intros H. unfold get_str. by rewrite lookup_insert_ne. Qed.

Lemma get_int_insert_ne kwargs k v k' dflt :
  k ≠ k' → get_int (<[k := v]> kwargs) k' dflt = get_int kwargs k' dflt.
Proof. intros H. unfold get_int. by rewrite lookup_insert_ne. Qed.

Lemma request_quality w prompt :
  model_kwargs w !! "quality" = None →
  request w prompt !! "quality" =
  if bool_decide (model_name w = newer_tier)
  then Some (VStr (quality w)) else None.
Proof.
  intros H. unfold request. rewrite lookup_union_r by done.
  case_bool_decide.
  - apply lookup_insert_eq.
  - rewrite !lookup_insert_ne by done. by apply lookup_singleton_ne.
Qed.

(** C5: the outgoing call carries [quality] if and only if the model is
    exactly [dall-e-3], and then with the wrapper's value, which is the
    caller's when one was supplied; for [dall-e-2] it is omitted. *)
Theorem quality_only_for_newer_tier kwargs w prompt :
  construct kwargs = Ok w →
  (is_Some (request w prompt !! "quality") ↔ model_name w = newer_tier) ∧
  (model_name w = newer_tier →
   request w prompt !! "quality" = Some (VStr (quality w))) ∧
  (model_name w = older_tier → request w prompt !! "quality" = None) ∧
  (∀ q, kwargs !! "quality" = Some (VStr q) → quality w = q).
Proof.
  intros H.
  assert (Hq : model_kwargs w !! "quality" = None).
  { apply (recognized_not_extension kwargs); [done|].
    unfold recognized. apply list_elem_of_In; cbn; auto 10. }
  rewrite (request_quality _ _ Hq).
  repeat split.
  - case_bool_decide; [done|]. by intros [? ?].
  - intros Hm. by rewrite bool_decide_eq_true_2.
  - intros Hm. by rewrite bool_decide_eq_true_2.
  - intros Hm. rewrite bool_decide_eq_false_2; [done|]. by rewrite Hm.
  - intros q Hkq. apply construct_ok in H as (_ & Hqual & _).
    unfold get_str in Hqual. rewrite Hkq in Hqual. congruence.
Qed.

(** C7: a keyword the builder does not recognise does not make
    construction fail; it is added to the Extension Map [model_kwargs] and
    reaches the outgoing call. *)
Theorem unrecognized_goes_to_extension_map kwargs k v w prompt :
  k ∉ recognized →
  construct kwargs = Ok w →
  ∃ w', construct (<[k := v]> kwargs) = Ok w' ∧
        model_kwargs w' = <[k := v]> (model_kwargs w) ∧
        model_kwargs w' !! k = Some v ∧
        request w' prompt !! k = Some v.
Proof.
  intros Hk H.
  assert (Hne : Forall (λ k', k ≠ k') recognized).
  { apply Forall_forall. intros k' Hk' ->. done. }
  unfold recognized in Hne.
  repeat match type of Hne with
         | Forall _ (_ :: _) =>
             let Hx := fresh "Hx" in apply Forall_cons in Hne as [Hx Hne]
         end.
  pose proof (construct_ok _ _ H) as (_ & _ & _ & Hext).
  unfold DallE.construct in *.
  rewrite !get_str_insert_ne, !get_int_insert_ne, lookup_insert_ne by done.
  apply bind_result_ok in H as (m & -> & H).
  apply bind_result_ok in H as (n & -> & H).
  apply bind_result_ok in H as (sz & -> & H).
  apply bind_result_ok in H as (q & -> & H).
  apply bind_result_ok in H as (sep & -> & H).
  apply bind_result_ok in H as (key & -> & H).
  injection H as <-. cbn [bind_result model_kwargs]. eexists. split; [done|].
  cbn [model_kwargs].
  assert (Hins : filter (λ kv : string * value, kv.1 ∉ recognized)
                   (<[k := v]> kwargs)
                 = <[k := v]> (filter (λ kv : string * value,
                                         kv.1 ∉ recognized) kwargs)).
  { by apply map_filter_insert_True. }
  rewrite Hins. split; [done|]. split; [apply lookup_insert_eq|].
  unfold request. cbn [model_kwargs].
  apply lookup_union_Some_l, lookup_insert_eq.
Qed.


End BuilderClaims.

Lemma quality_only_for_newer_tier_witness :
  ∃ w, construct "dall-e-2" "1024x1024" "standard" 1 None dalle2_hd = Ok w ∧
       request w "a cat" !! "quality" = None.
Proof.
  eexists. split; [vm_compute; reflexivity|].
  eapply (quality_only_for_newer_tier "dall-e-2" "1024x1024" "standard" 1
            None dalle2_hd); reflexivity.
Defined.

Lemma unrecognized_goes_to_extension_map_witness :
  ∃ w', construct "dall-e-2" "1024x1024" "standard" 1 None
          (<["foo" := VStr "bar"]> dalle2_hd) = Ok w' ∧
        model_kwargs w' = {[ "foo" := VStr "bar" ]} ∧
        request w' "a cat" !! "foo" = Some (VStr "bar").
Proof.
  edestruct (unrecognized_goes_to_extension_map "dall-e-2" "1024x1024"
               "standard" 1 None dalle2_hd "foo" (VStr "bar")
               (MkWrapper "dall-e-2" 1 "1024x1024" "hd" "," "foo" ∅) "a cat")
    as (w' & Hc & Hext & _ & Hreq).
  - intros H. apply list_elem_of_In in H. cbn in H. intuition discriminate.
  - vm_compute. reflexivity.
  - exists w'. split; [exact Hc|]. split; [|exact Hreq].
    rewrite Hext. vm_compute. reflexivity.
Defined.


End DallEClaims.

(** * Further properties of the normalisers and the loader *)

Section NormaliserExtras.

Implicit Types (s : state) (l : positive) (d : gmap string value) (k : string) (v : value).

Lemma spec_rename_absent old new d :
  d !! old = None → spec_rename old new d = d.
Proof. intros H. unfold spec_rename. by rewrite H. Qed.

Lemma spec_drop_flags_absent d :
  Forall (λ row, d !! row.1.1 = None) flag_table → spec_drop_flags d = d.
Proof.
  unfold spec_drop_flags, flag_table. intros H.
  repeat match type of H with
         | Forall _ (_ :: _) =>
             let Hk := fresh "Hk" in apply Forall_cons in H as [Hk H]
         end.
  cbn [foldl fst snd] in *. by repeat rewrite (delete_id d) by assumption.
Qed.

Lemma absent_flags_ok s l d :
  Forall (λ row, d !! row.1.1 = None) flag_table → flags_ok s l d.
Proof.
  unfold flags_ok, flag_value. intros H. eapply Forall_impl; [exact H|].
  intros row Hrow. cbv beta in *. rewrite Hrow. cbn. split; [discriminate|eauto].
Qed.

Lemma spec_scrape_extractor_gone h e d :
  (e = None → d !! "extractorOptions" = None) →
  spec_scrape h e d !! "extractorOptions" = None.
Proof.
  intros He. rewrite spec_scrape_lookup_other by (repeat constructor; done).
  destruct e as [e|]; [|by apply He].
  unfold spec_extract, spec_copy_key.
  repeat case_match; rewrite ?lookup_insert_ne by done; apply lookup_delete_eq.
Qed.

Lemma spec_scrape_fixpoint h h' e d :
  (e = None → d !! "extractorOptions" = None) →
  spec_scrape h' None (spec_scrape h e d) = spec_scrape h e d.
Proof.
  intros He. set (d1 := spec_scrape h e d).
  assert (Hflags : Forall (λ row, d1 !! row.1.1 = None) flag_table)
    by apply spec_scrape_lookup_flags.
  assert (Hfmt : is_Some (d1 !! "formats")).
  { unfold d1. rewrite spec_scrape_lookup_formats. destruct (d !! "formats"); eauto. }
  assert (Ht1 : d1 !! "onlyIncludeTags" = None).
  { unfold d1, spec_scrape. rewrite spec_set_formats_lookup_ne by done.
    rewrite spec_rename_lookup_ne by done. by apply spec_rename_lookup_old. }
  assert (Ht2 : d1 !! "removeTags" = None).
  { unfold d1, spec_scrape. rewrite spec_set_formats_lookup_ne by done.
    by apply spec_rename_lookup_old. }
  unfold spec_scrape at 1. cbn [spec_extract].
  rewrite spec_drop_flags_absent by done.
  rewrite (spec_rename_absent "onlyIncludeTags") by done.
  rewrite (spec_rename_absent "removeTags") by done.
  unfold spec_set_formats. by destruct Hfmt as [v ->].
Qed.

Lemma extractor_is_absent_after s l d e :
  extractor_is s l d e → e = None → d !! "extractorOptions" = None.
Proof. by intros [H|] ?. Qed.

(** X1: scrape-style normalisation is idempotent: a second run on the
    normalised dict changes nothing. *)
Theorem scrape_normalisation_idempotent s l d e :
  heap s !! l = Some (ODict d) → extractor_is s l d e → flags_ok s l d →
  ∃ s', _prepare_scrape_options (VRef l) s = (Ok (VRef l), s') ∧
        _prepare_scrape_options (VRef l) s' = (Ok (VRef l), s').
Proof.
  intros H He Hf. eexists. split; [by apply prepare_scrape_run|].
  set (d1 := spec_scrape (heap s) e d). set (s1 := set_obj l (ODict d1) s).
  assert (H1 : heap s1 !! l = Some (ODict d1)) by apply heap_set_obj_eq.
  rewrite (prepare_scrape_run s1 l d1 None); [|done|..].
  - unfold d1 at 1. rewrite spec_scrape_fixpoint
      by by apply (extractor_is_absent_after s l).
    by rewrite set_obj_id.
  - constructor. apply spec_scrape_extractor_gone.
    by apply (extractor_is_absent_after s l).
  - apply absent_flags_ok, spec_scrape_lookup_flags.
Qed.

Lemma spec_formats_sublist h d : spec_formats h d `sublist_of` format_tokens.
Proof.
  unfold spec_formats, format_tokens. induction flag_table as [|row rows IH].
  - constructor.
  - cbn. destruct (default false _).
    + by constructor.
    + by apply sublist_cons.
Qed.

(** X2: after scrape-style normalisation the dict always has a [formats]
    key; when the input had none, its value is a non-empty list of format
    tokens in table order. *)
Theorem scrape_formats_present s l d e :
  heap s !! l = Some (ODict d) → extractor_is s l d e → flags_ok s l d →
  ∃ d', _prepare_scrape_options (VRef l) s
          = (Ok (VRef l), set_obj l (ODict d') s) ∧
        is_Some (d' !! "formats") ∧
        (d !! "formats" = None →
         ∃ fs, d' !! "formats" = Some (VList fs) ∧ fs ≠ [] ∧
               fs `sublist_of` format_tokens).
Proof.
  intros H He Hf. exists (spec_scrape (heap s) e d).
  split; [by apply prepare_scrape_run|].
  rewrite spec_scrape_lookup_formats. split.
  - destruct (d !! "formats"); eauto.
  - intros ->. eexists. split; [done|].
    pose proof (spec_formats_sublist (heap s) d) as Hsub.
    destruct (spec_formats (heap s) d) as [|f fs]; [|done].
    split; [done|]. unfold format_tokens, flag_table. cbn.
    apply sublist_skip, sublist_nil_l.
Qed.

(** X3: scrape-style normalisation leaves every key outside its rules as
    it found it. *)
Theorem scrape_other_keys_pass_through s l d e k :
  heap s !! l = Some (ODict d) → extractor_is s l d e → flags_ok s l d →
  k ∉ scrape_rule_keys →
  ∃ d', _prepare_scrape_options (VRef l) s
          = (Ok (VRef l), set_obj l (ODict d') s) ∧
        d' !! k = d !! k.
Proof.
  intros H He Hf Hk. exists (spec_scrape (heap s) e d).
  split; [by apply prepare_scrape_run|].
  assert (Hne : Forall (λ k', k ≠ k') scrape_rule_keys).
  { apply Forall_forall. by intros k' Hk' ->. }
  unfold scrape_rule_keys, flag_table, tag_renames in Hne. cbn in Hne.
  repeat match type of Hne with
         | Forall _ (_ :: _) =>
             let Hx := fresh "Hx" in apply Forall_cons in Hne as [Hx Hne]
         end.
  rewrite spec_scrape_lookup_other by (repeat constructor; done).
  by apply spec_extract_lookup.
Qed.

End NormaliserExtras.

Section CrawlerExtras.

Implicit Types (s : state) (l : positive) (d : gmap string value) (k : string) (v : value).

Lemma set_obj_comm l l' o o' s :
  l ≠ l' → set_obj l o (set_obj l' o' s) = set_obj l' o' (set_obj l o s).
Proof.
  intros H. unfold set_obj; cbn. f_equal. by apply insert_insert_ne.
Qed.

Lemma spec_formats_insert_ne h l o d :
  Forall (λ row, flag_value d row ≠ VRef l) flag_table →
  spec_formats (<[l := o]> h) d = spec_formats h d.
Proof.
  unfold spec_formats. induction flag_table as [|row rows IH]; [done|].
  intros [Hrow Hrows]%Forall_cons. cbn.
  rewrite truthy_in_insert_ne by done. by rewrite IH.
Qed.

Lemma flags_ok_insert_ne s l lp o d :
  Forall (λ row, flag_value d row ≠ VRef l) flag_table →
  flags_ok s lp d → flags_ok (set_obj l o s) lp d.
Proof.
  unfold flags_ok. rewrite !Forall_forall. intros Hne Hf row Hrow.
  destruct (Hf row Hrow) as [Hlp Hb]. split; [done|].
  unfold set_obj; cbn. rewrite truthy_in_insert_ne; [done|by apply Hne].
Qed.

Lemma extractor_is_insert_ne s l lp o d e :
  (∀ le, d !! "extractorOptions" = Some (VRef le) → le ≠ l) →
  extractor_is s lp d e → extractor_is (set_obj l o s) lp d e.
Proof.
  intros Hne [Habs | le e' Hd Hlp Hle].
  - by constructor.
  - econstructor; [done|done|]. rewrite heap_set_obj_ne; [done|].
    intros Heq. by apply (Hne le).
Qed.

Lemma no_ref_to_flags l d :
  no_ref_to l d → Forall (λ row, flag_value d row ≠ VRef l) flag_table.
Proof.
  intros H. apply Forall_forall. intros row _. unfold flag_value.
  destruct (d !! row.1.1) as [v|] eqn:E; cbn; [|discriminate].
  intros ->. by apply (H row.1.1).
Qed.

(** [_prepare_crawler_options] on a dict whose [pageOptions] is a dict of
    its own: the nested dict is normalised in place and becomes
    [scrapeOptions]. *)
Lemma prepare_crawler_page_run s l d lp dp e :
  heap s !! l = Some (ODict d) →
  d !! "pageOptions" = Some (VRef lp) →
  lp ≠ l →
  heap s !! lp = Some (ODict dp) →
  extractor_is s lp dp e →
  flags_ok s lp dp →
  (∀ le, dp !! "extractorOptions" = Some (VRef le) → le ≠ l) →
  Forall (λ row, flag_value dp row ≠ VRef l) flag_table →
  _prepare_crawler_options (VRef l) s
  = (Ok (VRef l),
     set_obj l (ODict (<["scrapeOptions" := VRef lp]>
                         (delete "pageOptions" (spec_crawl d))))
       (set_obj lp (ODict (spec_scrape (heap s) e dp)) s)).
Proof.
  intros H Hp Hne Hlp He Hf Hle Hfl. unfold _prepare_crawler_options.
  rewrite <- (set_obj_id l (ODict d) s) at 1 by done.
  do 4 (rewrite bind_run, (py_in_run _ _ _) by apply heap_set_obj_eq;
        rewrite bind_run, rename_body_run).
  change (spec_rename _ _ (spec_rename _ _ (spec_rename _ _ (spec_rename _ _ d))))
    with (spec_crawl d).
  assert (Hp4 : spec_crawl d !! "pageOptions" = Some (VRef lp)).
  { unfold spec_crawl. by rewrite !spec_rename_lookup_ne. }
  rewrite bind_run, (py_in_run _ _ _) by apply heap_set_obj_eq.
  rewrite bool_decide_eq_true_2 by eauto.
  rewrite bind_run, bind_run, (py_pop_run _ _ _ (VRef lp))
    by (apply heap_set_obj_eq || done).
  rewrite set_obj_twice. cbv beta iota. rewrite bind_run.
  set (da := delete "pageOptions" (spec_crawl d)).
  rewrite (prepare_scrape_run _ lp dp e);
    [|by rewrite heap_set_obj_ne|by apply extractor_is_insert_ne
     |by apply flags_ok_insert_ne].
  rewrite (py_setitem_run _ _ da)
    by (by rewrite heap_set_obj_ne, heap_set_obj_eq).
  change (heap (set_obj l (ODict da) s)) with (<[l := ODict da]> (heap s)).
  unfold spec_scrape. rewrite spec_formats_insert_ne by done.
  fold (spec_scrape (heap s) e dp).
  rewrite (set_obj_comm lp l) by done. rewrite set_obj_twice.
  by rewrite (set_obj_comm l lp).
Qed.

End CrawlerExtras.

Section CrawlerTheorems.

Implicit Types (s : state) (l : positive) (d : gmap string value) (k : string) (v : value).

(** X4: when [pageOptions] is a dict, crawl-style normalisation removes
    that key, normalises the very same dict object in place as scrape
    options and stores the reference to it under [scrapeOptions]; no other
    object changes. *)
Theorem crawler_page_options_aliased s l d lp dp e :
  heap s !! l = Some (ODict d) →
  d !! "pageOptions" = Some (VRef lp) →
  lp ≠ l →
  heap s !! lp = Some (ODict dp) →
  extractor_is s lp dp e →
  flags_ok s lp dp →
  no_ref_to l dp →
  ∃ s' d',
    _prepare_crawler_options (VRef l) s = (Ok (VRef l), s') ∧
    heap s' !! l = Some (ODict d') ∧
    d' !! "pageOptions" = None ∧
    d' !! "scrapeOptions" = Some (VRef lp) ∧
    heap s' !! lp = Some (ODict (spec_scrape (heap s) e dp)) ∧
    calls s' = calls s ∧
    ∀ l0, l0 ≠ l → l0 ≠ lp → heap s' !! l0 = heap s !! l0.
Proof.
  intros H Hp Hne Hlp He Hf Hno. eexists _, _.
  split; [apply (prepare_crawler_page_run s l d lp dp e); try done|].
  - intros le Hle ->. by apply (Hno "extractorOptions").
  - by apply no_ref_to_flags.
  - split; [apply heap_set_obj_eq|].
    split; [by rewrite lookup_insert_ne, lookup_delete_eq|].
    split; [apply lookup_insert_eq|].
    split; [by rewrite heap_set_obj_ne, heap_set_obj_eq|].
    split; [done|].
    intros l0 H1 H2. by rewrite !heap_set_obj_ne.
Qed.

Lemma spec_crawl_overrides d : overrides crawl_renames d (spec_crawl d).
Proof.
  unfold overrides, crawl_renames, spec_crawl.
  repeat constructor; cbn [fst snd].
  all: rewrite ?spec_rename_lookup_ne by done.
  all: try (by apply spec_rename_lookup_old).
  all: by rewrite spec_rename_lookup_new, ?spec_rename_lookup_ne by done.
Qed.

Lemma spec_crawl_lookup_other d k :
  Forall (λ r, k ≠ r.1 ∧ k ≠ r.2) crawl_renames →
  spec_crawl d !! k = d !! k.
Proof.
  unfold crawl_renames, spec_crawl. intros H.
  repeat match type of H with
         | Forall _ (_ :: _) =>
             let Ha := fresh "Ha" in let Hb := fresh "Hb" in
             apply Forall_cons in H as [[Ha Hb] H]
         end.
  cbn [fst snd] in *. by rewrite !spec_rename_lookup_ne.
Qed.

(** The copy and the crawl-style normalisation of [lazy_load], together. *)
Lemma crawl_copy_run s l d (l' := fresh (dom (heap s))) :
  heap s !! l = Some (ODict d) →
  page_options_is s d →
  ∃ s' d',
    (p ← py_copy (VRef l); _prepare_crawler_options p) s
      = (Ok (VRef l'), s') ∧
    heap s' !! l' = Some (ODict d') ∧
    calls s' = calls s ∧
    (∀ l0 o, heap s !! l0 = Some o →
             d !! "pageOptions" ≠ Some (VRef l0) → heap s' !! l0 = Some o) ∧
    (∀ k, k ≠ "pageOptions" → k ≠ "scrapeOptions" →
          d' !! k = spec_crawl d !! k) ∧
    d' !! "pageOptions" = None ∧
    d' !! "scrapeOptions" = match d !! "pageOptions" with
                            | Some v => Some v
                            | None => d !! "scrapeOptions"
                            end.
Proof.
  intros H Hpage. rewrite bind_run, (py_copy_run _ d) by done. fold l'.
  set (s1 := set_obj l' (ODict d) s).
  assert (Hl' : heap s !! l' = None) by apply fresh_loc_unused.
  assert (H1 : heap s1 !! l' = Some (ODict d)) by apply heap_set_obj_eq.
  destruct Hpage as [Hp | lp dp e Hp Hlp He Hf].
  - exists (set_obj l' (ODict (spec_crawl d)) s1), (spec_crawl d).
    split; [by apply prepare_crawler_run|].
    split; [apply heap_set_obj_eq|]. split; [done|].
    split; [|split; [|split]].
    + intros l0 o Hl0 _. unfold s1. rewrite !heap_set_obj_ne; [done|..];
        intros <-; by rewrite Hl' in Hl0.
    + reflexivity.
    + by rewrite spec_crawl_lookup_other by (repeat constructor; done).
    + rewrite Hp. by rewrite spec_crawl_lookup_other by (repeat constructor; done).
  - assert (Hne : lp ≠ l') by (intros ->; by rewrite Hl' in Hlp).
    eexists _, _. split.
    { apply (prepare_crawler_page_run s1 l' d lp dp e); try done.
      - unfold s1. by rewrite heap_set_obj_ne.
      - apply extractor_is_insert_ne; [|done].
        intros le Hle ->. destruct He as [Habs | le' e' Hd _ Hh]; [congruence|].
        rewrite Hle in Hd. injection Hd as <-. by rewrite Hl' in Hh.
      - apply flags_ok_insert_ne; [|done].
        unfold flags_ok in Hf. rewrite Forall_forall in *.
        intros row Hrow Hv. destruct (Hf row Hrow) as [_ [b Hb]].
        rewrite Hv in Hb. cbn in Hb. by rewrite Hl' in Hb.
      - intros le Hle ->. destruct He as [Habs | le' e' Hd _ Hh]; [congruence|].
        rewrite Hle in Hd. injection Hd as <-. by rewrite Hl' in Hh.
      - unfold flags_ok in Hf. rewrite Forall_forall in *.
        intros row Hrow Hv. destruct (Hf row Hrow) as [_ [b Hb]].
        rewrite Hv in Hb. cbn in Hb. by rewrite Hl' in Hb. }
    split; [apply heap_set_obj_eq|]. split; [done|].
    split; [|split; [|split]].
    + intros l0 o Hl0 Hnp. unfold s1. rewrite !heap_set_obj_ne; [done|..].
      * intros <-. by rewrite Hl' in Hl0.
      * intros <-. by apply Hnp.
      * intros <-. by rewrite Hl' in Hl0.
    + intros k Hk1 Hk2. by rewrite lookup_insert_ne, lookup_delete_ne.
    + by rewrite lookup_insert_ne, lookup_delete_eq.
    + rewrite Hp. apply lookup_insert_eq.
Qed.

(** X5: in [crawl] mode the copy and the normalisation of [lazy_load]
    change no object of the caller other than the dict under
    [pageOptions]; the caller's outer dict in particular is untouched. *)
Theorem crawl_copy_frame s l d :
  heap s !! l = Some (ODict d) →
  page_options_is s d →
  ∃ p s',
    (p ← py_copy (VRef l); _prepare_crawler_options p) s = (Ok p, s') ∧
    calls s' = calls s ∧
    ∀ l0 o, heap s !! l0 = Some o →
            d !! "pageOptions" ≠ Some (VRef l0) → heap s' !! l0 = Some o.
Proof.
  intros H Hpage.
  destruct (crawl_copy_run s l d H Hpage)
    as (s' & d' & Hrun & _ & Hc & Hframe & _).
  eauto 10.
Qed.

(** X6: in the options that [crawl] mode sends, a legacy key is gone and
    its value has replaced whatever the canonical key held; [pageOptions]
    has likewise moved to [scrapeOptions]; every other key is as the
    caller gave it. *)
Theorem crawl_legacy_overrides_canonical s l d :
  heap s !! l = Some (ODict d) →
  page_options_is s d →
  ∃ l' s' d',
    (p ← py_copy (VRef l); _prepare_crawler_options p) s
      = (Ok (VRef l'), s') ∧
    heap s' !! l' = Some (ODict d') ∧
    overrides crawl_renames d d' ∧
    overrides [("pageOptions", "scrapeOptions")] d d' ∧
    ∀ k, k ∉ crawl_rule_keys → d' !! k = d !! k.
Proof.
  intros H Hpage.
  destruct (crawl_copy_run s l d H Hpage)
    as (s' & d' & Hrun & Hd' & _ & _ & Hother & Hpo & Hso).
  exists (fresh (dom (heap s))), s', d'. split; [done|]. split; [done|].
  split; [|split].
  - pose proof (spec_crawl_overrides d) as Hov.
    unfold overrides, crawl_renames in *.
    repeat match type of Hov with
           | Forall _ (_ :: _) =>
               let Ha := fresh "Ha" in
               apply Forall_cons in Hov as [Ha Hov]
           end.
    cbn [fst snd] in *.
    repeat constructor; cbn [fst snd]; rewrite Hother by done; tauto.
  - repeat constructor; cbn [fst snd]; [done|].
    rewrite Hso. by destruct (d !! "pageOptions").
  - intros k Hk.
    assert (Hne : Forall (λ k', k ≠ k') crawl_rule_keys).
    { apply Forall_forall. by intros k' Hk' ->. }
    unfold crawl_rule_keys, crawl_renames in Hne. cbn in Hne.
    repeat match type of Hne with
           | Forall _ (_ :: _) =>
               let Hx := fresh "Hx" in apply Forall_cons in Hne as [Hx Hne]
           end.
    rewrite Hother by done.
    by apply spec_crawl_lookup_other; repeat constructor.
Qed.

(** X7: scrape-style normalisation lets [onlyIncludeTags] and
    [removeTags] overwrite [includeTags] and [excludeTags] when both are
    given. *)
Theorem scrape_legacy_tags_override_canonical s l d e :
  heap s !! l = Some (ODict d) → extractor_is s l d e → flags_ok s l d →
  ∃ d', _prepare_scrape_options (VRef l) s
          = (Ok (VRef l), set_obj l (ODict d') s) ∧
        overrides tag_renames d d'.
Proof.
  intros H He Hf. exists (spec_scrape (heap s) e d).
  split; [by apply prepare_scrape_run|].
  unfold overrides, tag_renames, spec_scrape.
  repeat constructor; cbn [fst snd].
  all: rewrite spec_set_formats_lookup_ne by done.
  all: rewrite ?spec_rename_lookup_ne by done.
  all: try (by apply spec_rename_lookup_old).
  all: rewrite spec_rename_lookup_new, ?spec_rename_lookup_ne by done.
  all: rewrite !spec_drop_flags_lookup by (repeat constructor; done).
  all: by rewrite !spec_extract_lookup by done.
Qed.

End CrawlerTheorems.

Section ErrorExtras.

Implicit Types (s : state) (l : positive) (d : gmap string value) (k : string) (v : value).

Lemma scrape_not_a_dict_run p s :
  not_a_dict (heap s) p →
  _prepare_scrape_options p s = (Err (scrape_error p), s).
Proof.
  intros Hp. unfold _prepare_scrape_options. rewrite bind_run.
  destruct p as [| b | z | str | xs | l]; try reflexivity.
  - cbn [py_in]. rewrite ret_run. cbv beta iota.
    destruct (is_substring "extractorOptions" str); reflexivity.
  - cbn [py_in]. rewrite ret_run. cbv beta iota.
    destruct (existsb (is_str "extractorOptions") xs); reflexivity.
  - destruct Hp as [attrs Hl]. unfold py_in, deref. by rewrite bind_run, Hl.
Qed.

(** X8: on a value that is not a dict, [_prepare_scrape_options] raises
    ([AttributeError] for a string, [TypeError] otherwise) and leaves the
    store as it was. *)
Theorem scrape_options_not_a_dict p s :
  not_a_dict (heap s) p →
  _prepare_scrape_options p s = (Err (scrape_error p), s).
Proof. apply scrape_not_a_dict_run. Qed.

Lemma not_a_dict_fresh s o p :
  not_a_dict (heap s) p →
  not_a_dict (heap (set_obj (fresh (dom (heap s))) o s)) p.
Proof.
  destruct p as [| | | | |l]; try done. intros [attrs Hl]. exists attrs.
  by apply set_obj_fresh_extends.
Qed.

Lemma not_a_dict_set_dict s l d d' p :
  heap s !! l = Some (ODict d) →
  not_a_dict (heap s) p → not_a_dict (heap (set_obj l (ODict d') s)) p.
Proof.
  intros H. destruct p as [| | | | |l0]; try done. intros [attrs Hl].
  exists attrs. rewrite heap_set_obj_ne; [done|]. intros ->. congruence.
Qed.

(** [_prepare_crawler_options] on a dict whose [pageOptions] is not a dict:
    the renames and the [pop] are done by the time the call fails. *)
Lemma prepare_crawler_bad_page_run s l d v :
  heap s !! l = Some (ODict d) →
  d !! "pageOptions" = Some v →
  not_a_dict (heap s) v →
  _prepare_crawler_options (VRef l) s
  = (Err (scrape_error v),
     set_obj l (ODict (delete "pageOptions" (spec_crawl d))) s).
Proof.
  intros H Hp Hv. unfold _prepare_crawler_options.
  rewrite <- (set_obj_id l (ODict d) s) at 1 by done.
  do 4 (rewrite bind_run, (py_in_run _ _ _) by apply heap_set_obj_eq;
        rewrite bind_run, rename_body_run).
  change (spec_rename _ _ (spec_rename _ _ (spec_rename _ _ (spec_rename _ _ d))))
    with (spec_crawl d).
  assert (Hp4 : spec_crawl d !! "pageOptions" = Some v).
  { unfold spec_crawl. by rewrite !spec_rename_lookup_ne. }
  rewrite bind_run, (py_in_run _ _ _) by apply heap_set_obj_eq.
  rewrite bool_decide_eq_true_2 by eauto.
  rewrite bind_run, bind_run, (py_pop_run _ _ _ v)
    by (apply heap_set_obj_eq || done).
  rewrite set_obj_twice. cbv beta iota. rewrite bind_run.
  rewrite scrape_not_a_dict_run; [done|].
  by apply (not_a_dict_set_dict _ _ d).
Qed.

End ErrorExtras.

Section LoaderExtras.

Variable remote : string → list value → gmap string value → M value.
Variable py_str : gmap positive obj → value → string.
Variable key_order : positive → gmap string value → list string.

Implicit Types (s : state) (l : positive) (d : gmap string value) (k : string) (v : value).

(** X9: in [crawl] mode a [pageOptions] value that is not a dict makes
    [lazy_load] raise before any remote call, with the caller's objects
    unchanged. *)
Theorem crawl_page_options_not_a_dict self s l d v :
  mode self = "crawl" →
  url self ≠ "" →
  params self = VRef l →
  heap s !! l = Some (ODict d) →
  d !! "pageOptions" = Some v →
  not_a_dict (heap s) v →
  ∃ s', lazy_load remote py_str key_order self s = (Err (scrape_error v), s') ∧
        calls s' = calls s ∧
        ∀ l0 o, heap s !! l0 = Some o → heap s' !! l0 = Some o.
Proof.
  intros Hmode Hurl Hp H Hpage Hv. eexists. split; [|split].
  - unfold lazy_load. rewrite Hmode, Hp.
    rewrite (proj2 (String.eqb_neq "crawl" "scrape")) by done.
    rewrite String.eqb_refl, (proj2 (String.eqb_neq _ _) Hurl).
    rewrite !bind_run, (py_copy_run _ d) by done.
    rewrite bind_run, (prepare_crawler_bad_page_run _ _ d v);
      [reflexivity|apply heap_set_obj_eq|done|by apply not_a_dict_fresh].
  - reflexivity.
  - intros l0 o Hl0. cbn [snd]. rewrite set_obj_twice.
    by apply set_obj_fresh_extends.
Qed.

(** X10: [lazy_load] raises [ValueError] without touching the store or
    the remote client for a mode outside the five, and for an empty url in
    [crawl], [map] and [extract] mode. *)
Theorem lazy_load_configuration_errors self s :
  (mode self ∉ ["scrape"; "crawl"; "map"; "extract"; "search"] →
   ∃ msg, lazy_load remote py_str key_order self s = (Err (ValueError msg), s)) ∧
  (mode self ∈ ["crawl"; "map"; "extract"] → url self = "" →
   lazy_load remote py_str key_order self s
   = (Err (ValueError ("URL is required for " ++ mode self ++ " mode")), s)).
Proof.
  split.
  - intros Hmode. eexists. unfold lazy_load.
    rewrite !(proj2 (String.eqb_neq (mode self) _)); [reflexivity|..];
      intros Heq; apply Hmode; rewrite Heq;
      apply list_elem_of_In; cbn; auto 10.
  - intros Hmode Hurl. unfold lazy_load. rewrite Hurl.
    apply list_elem_of_In in Hmode. cbn in Hmode.
    destruct Hmode as [<- | [<- | [<- | []]]]; reflexivity.
Qed.

(** X11: in [search] mode [lazy_load] either fails before the remote
    call or calls the remote search with [query=None]: no other query can
    reach it. *)
Theorem search_query_is_always_none self s :
  mode self = "search" →
  (∃ e, lazy_load remote py_str key_order self s = (Err e, s)) ∨
  (∃ kw, kw !! "query" = Some VNone ∧
         lazy_load remote py_str key_order self s
         = (firecrawl_docs ← call_remote remote "search" [] kw;
            docs ← py_iter key_order firecrawl_docs;
            project_all "search" docs) s).
Proof.
  intros Hmode. unfold lazy_load. rewrite Hmode.
  rewrite !(proj2 (String.eqb_neq "search" _)) by done.
  rewrite String.eqb_refl.
  destruct (params self) as [| b | z | str | xs | l];
    try (left; eexists; reflexivity).
  destruct (heap s !! l) as [[d | attrs] |] eqn:Hl.
  - rewrite !bind_run, (py_get_run _ _ d) by done.
    rewrite bind_run, (py_kwargs_run _ d) by done.
    destruct (d !! "query") as [q|] eqn:Hq.
    + left. rewrite bool_decide_eq_true_2 by eauto. eauto.
    + right. rewrite bool_decide_eq_false_2 by (intros [? ?]; congruence).
      exists (<["query" := VNone]> d). split; [apply lookup_insert_eq|].
      by rewrite bind_run.
  - left. eexists. unfold py_get, deref. by rewrite !bind_run, Hl.
  - left. eexists. unfold py_get, deref. by rewrite !bind_run, Hl.
Qed.

End LoaderExtras.

Section ProjectorExtras.

Implicit Types (s : state) (l : positive) (d : gmap string value) (k : string) (v : value).

Lemma extends_refl s : extends s s.
Proof. by split. Qed.

Lemma extends_trans s1 s2 s3 : extends s1 s2 → extends s2 s3 → extends s1 s3.
Proof. intros [Hc1 H1] [Hc2 H2]. split; [congruence|eauto]. Qed.

Lemma extends_fresh s o : extends s (set_obj (fresh (dom (heap s))) o s).
Proof. split; [done|]. intros l0 o0. apply set_obj_fresh_extends. Qed.

Lemma extends_truthy s s' v b :
  extends s s' → truthy_in (heap s) v = Some b → truthy_in (heap s') v = Some b.
Proof. intros [_ H]. by apply truthy_in_mono. Qed.

Lemma oa_ret {A : Type} (a : A) : only_allocates (mret a).
Proof. intros s r s' [= <- <-]. apply extends_refl. Qed.

Lemma oa_raise {A : Type} e : only_allocates (raise (A := A) e).
Proof. intros s r s' [= <- <-]. apply extends_refl. Qed.

Lemma oa_bind {A B : Type} (m : M A) (f : A → M B) :
  only_allocates m → (∀ a, only_allocates (f a)) → only_allocates (m ≫= f).
Proof.
  intros Hm Hf s r s'. rewrite bind_run.
  destruct (m s) as [[a|e] s0] eqn:E.
  - intros Hfa. eapply extends_trans; [by eapply Hm|by eapply Hf].
  - intros [= <- <-]. by eapply Hm.
Qed.

Lemma oa_alloc o : only_allocates (alloc o).
Proof. intros s r s' [= <- <-]. apply extends_fresh. Qed.

Lemma oa_deref l : only_allocates (deref l).
Proof.
  intros s r s'. unfold deref. destruct (heap s !! l);
    intros [= <- <-]; apply extends_refl.
Qed.

Lemma oa_truthy v : only_allocates (truthy v).
Proof.
  intros s r s'. unfold truthy. destruct (truthy_in (heap s) v);
    intros [= <- <-]; apply extends_refl.
Qed.

Lemma oa_getattr doc name dflt : only_allocates (getattr doc name dflt).
Proof.
  destruct doc; try apply oa_ret. cbn [getattr].
  apply oa_bind; [apply oa_deref|]. intros [d|attrs]; apply oa_ret.
Qed.

Lemma oa_py_or x rest : only_allocates rest → only_allocates (py_or x rest).
Proof.
  intros H. apply oa_bind; [apply oa_truthy|]. intros [|]; [apply oa_ret|done].
Qed.

Lemma oa_new_Document pc md : only_allocates (new_Document pc md).
Proof.
  unfold new_Document. destruct pc; try apply oa_raise.
  destruct md; try apply oa_raise.
  apply oa_bind; [apply oa_deref|]. intros [d|attrs]; [|apply oa_raise].
  apply oa_bind; [apply oa_alloc|]. intros ?. apply oa_ret.
Qed.

Lemma new_Document_content pc md s (dc : Document) s' :
  new_Document pc md s = (Ok dc, s') → page_content dc = pc.
Proof.
  unfold new_Document. destruct pc; try done. destruct md; try done.
  intros H. apply bind_ok_inv in H as ([d|attrs] & s1 & _ & H); [|done].
  apply bind_ok_inv in H as (lm & s2 & _ & H). by injection H as <- <-.
Qed.

Lemma oa_project mode doc : only_allocates (project mode doc).
Proof.
  unfold project. apply oa_bind.
  - destruct (_ || _).
    + apply oa_bind; [apply oa_alloc|]. intros ?. apply oa_ret.
    + apply oa_bind; [apply oa_getattr|]. intros ?.
      apply oa_bind.
      { apply oa_py_or, oa_bind; [apply oa_getattr|]. intros ?.
        apply oa_py_or, oa_bind; [apply oa_getattr|]. intros ?.
        apply oa_py_or, oa_ret. }
      intros ?. apply oa_bind; [apply oa_alloc|]. intros ?.
      apply oa_bind; [apply oa_getattr|]. intros ?.
      apply oa_bind; [apply oa_py_or, oa_alloc|]. intros ?. apply oa_ret.
  - intros [pc md]. apply oa_bind; [apply oa_truthy|].
    intros [|]; [|apply oa_ret].
    apply oa_bind; [apply oa_new_Document|]. intros ?. apply oa_ret.
Qed.

Lemma oa_project_all mode docs : only_allocates (project_all mode docs).
Proof.
  induction docs as [|doc rest IH]; [apply oa_ret|]. cbn [project_all].
  apply oa_bind; [apply oa_project|]. intros r.
  apply oa_bind; [done|]. intros rs. apply oa_ret.
Qed.

Lemma project_some mode doc s (dc : Document) s' :
  project mode doc s = (Ok (Some dc), s') →
  truthy_in (heap s') (page_content dc) = Some true.
Proof.
  unfold project. intros H.
  apply bind_ok_inv in H as ([pc md] & s0 & _ & H).
  apply bind_ok_inv in H as (t & s1 & Ht & H).
  unfold truthy in Ht. destruct (truthy_in (heap s0) pc) as [b|] eqn:E; [|done].
  injection Ht as <- <-. destruct b; [|done]. cbn [negb] in H.
  apply bind_ok_inv in H as (d0 & s2 & Hd & H). injection H as <- <-.
  rewrite (new_Document_content _ _ _ _ _ Hd).
  eapply extends_truthy; [by eapply oa_new_Document|done].
Qed.

Lemma project_all_invariant mode docs s ds s' :
  project_all mode docs s = (Ok ds, s') →
  (length ds ≤ length docs)%nat ∧
  Forall (λ dc, truthy_in (heap s') (page_content dc) = Some true) ds ∧
  extends s s'.
Proof.
  revert s ds s'. induction docs as [|doc rest IH]; intros s ds s' H.
  - injection H as <- <-. split; [done|]. split; [constructor|apply extends_refl].
  - pose proof (oa_project_all _ _ _ _ _ H) as Hext.
    cbn [project_all] in H.
    apply bind_ok_inv in H as (r & s0 & Hr & H).
    apply bind_ok_inv in H as (rs & s1 & Hrs & H).
    injection H as <- <-.
    destruct (IH _ _ _ Hrs) as (Hlen & Hall & Hext1).
    split; [destruct r; cbn; lia|]. split; [|done].
    destruct r as [d0|]; [|done]. constructor; [|done].
    eapply extends_truthy; [exact Hext1|by eapply project_some].
Qed.

(** X12: the loop of [lazy_load] yields at most one document per
    record, every yielded document has non-empty (truthy) content, and the
    loop only creates new objects. *)
Theorem projected_documents_have_content mode docs s ds s' :
  project_all mode docs s = (Ok ds, s') →
  (length ds ≤ length docs)%nat ∧
  Forall (λ dc, truthy_in (heap s') (page_content dc) = Some true) ds ∧
  extends s s'.
Proof. apply project_all_invariant. Qed.

End ProjectorExtras.

Section ProjectorModes.

Implicit Types (s : state) (l : positive) (d : gmap string value) (k : string) (v : value).

Lemma plain_record_extends s s' doc :
  extends s s' → plain_record (heap s) doc → plain_record (heap s') doc.
Proof.
  intros [_ H]. destruct doc as [| | | | |l]; try done.
  intros [d Hd]. exists d. by apply H.
Qed.

Lemma getattr_plain_run doc name dflt s :
  plain_record (heap s) doc → getattr doc name dflt s = (Ok dflt, s).
Proof.
  destruct doc as [| | | | |l]; try done. intros [d Hd].
  unfold getattr, deref. by rewrite bind_run, Hd.
Qed.

Lemma project_plain_run mode doc s :
  mode ≠ "map" → mode ≠ "extract" →
  plain_record (heap s) doc →
  ∃ s', project mode doc s = (Ok None, s') ∧ extends s s'.
Proof.
  intros Hmap Hext Hdoc.
  set (l1 := fresh (dom (heap s))). set (s1 := set_obj l1 (ODict ∅) s).
  set (l2 := fresh (dom (heap s1))). set (s2 := set_obj l2 (ODict ∅) s1).
  assert (Hdoc1 : plain_record (heap s1) doc)
    by (eapply plain_record_extends; [apply extends_fresh|done]).
  assert (Hl1 : heap s1 !! l1 = Some (ODict ∅)) by apply heap_set_obj_eq.
  exists s2. split.
  - unfold project.
    rewrite (proj2 (String.eqb_neq _ _) Hmap), (proj2 (String.eqb_neq _ _) Hext).
    cbn [orb]. rewrite !bind_run, getattr_plain_run by done.
    rewrite bind_run, (py_or_run _ _ false) by done.
    rewrite bind_run, getattr_plain_run by done.
    rewrite (py_or_run _ _ false) by done.
    rewrite bind_run, getattr_plain_run by done.
    rewrite (py_or_run _ _ false) by done.
    rewrite ret_run, bind_run.
    change (alloc (ODict ∅) s) with (Ok (VRef l1), s1). cbv beta iota.
    rewrite bind_run, getattr_plain_run by done.
    rewrite bind_run, (py_or_run _ _ false)
      by (unfold truthy_in; by rewrite Hl1).
    reflexivity.
  - eapply extends_trans; apply extends_fresh.
Qed.

(** X13: outside [map] and [extract] mode, records that are dicts or
    built-in values (no attribute objects) yield no document at all. *)
Theorem plain_records_yield_nothing mode docs s :
  mode ≠ "map" → mode ≠ "extract" →
  Forall (plain_record (heap s)) docs →
  ∃ s', project_all mode docs s = (Ok [], s') ∧ extends s s'.
Proof.
  intros Hmap Hext. revert s. induction docs as [|doc rest IH]; intros s Hall.
  - exists s. split; [done|apply extends_refl].
  - apply Forall_cons in Hall as [Hdoc Hrest].
    destruct (project_plain_run mode doc s Hmap Hext Hdoc) as (s0 & Hp & He0).
    destruct (IH s0) as (s' & Hrun & He1).
    { eapply Forall_impl; [exact Hrest|].
      intros x. by apply plain_record_extends. }
    exists s'. split; [|by eapply extends_trans].
    cbn [project_all]. by rewrite bind_run, Hp, bind_run, Hrun.
Qed.

Lemma extends_unused s s' l :
  extends s s' → heap s' !! l = None → heap s !! l = None.
Proof.
  intros [_ H] Hn. destruct (heap s !! l) as [o|] eqn:E; [|done].
  apply H in E. congruence.
Qed.

(** One turn of the loop on a string record. *)
Lemma project_string_run mode x s :
  mode = "map" ∨ mode = "extract" →
  ∃ r s1,
    project mode (VStr x) s = (Ok r, s1) ∧ extends s s1 ∧
    match r with
    | Some dc => x ≠ "" ∧ page_content dc = VStr x ∧
                 ∃ lm, metadata dc = VRef lm ∧ heap s !! lm = None ∧
                       heap s1 !! lm = Some (ODict ∅)
    | None => x = ""
    end.
Proof.
  intros Hmode.
  set (l1 := fresh (dom (heap s))). set (s1 := set_obj l1 (ODict ∅) s).
  set (l2 := fresh (dom (heap s1))). set (s2 := set_obj l2 (ODict ∅) s1).
  assert (Hl1 : heap s1 !! l1 = Some (ODict ∅)) by apply heap_set_obj_eq.
  assert (Hproj : project mode (VStr x) s
            = (t ← truthy (VStr x);
               if negb t then mret None
               else dc ← new_Document (VStr x) (VRef l1); mret (Some dc)) s1).
  { unfold project.
    assert (String.eqb mode "map" || String.eqb mode "extract" = true) as ->.
    { destruct Hmode as [-> | ->]; reflexivity. }
    rewrite !bind_run.
    change (alloc (ODict ∅) s) with (Ok (VRef l1), s1). cbv beta iota.
    rewrite ret_run. cbv beta iota. by rewrite bind_run. }
  rewrite Hproj. clear Hproj. destruct x as [|c x].
  - exists None, s1. split; [done|]. split; [apply extends_fresh|done].
  - exists (Some (MkDocument (VStr (String c x)) (VRef l2))), s2. split.
    { rewrite bind_run, (truthy_run _ true) by done. cbn [negb].
      by rewrite bind_run, (new_Document_run _ _ _ _ Hl1). }
    split; [eapply extends_trans; apply extends_fresh|].
    split; [done|]. split; [done|]. exists l2. split; [done|].
    split; [|apply heap_set_obj_eq].
    eapply extends_unused; [apply extends_fresh|apply fresh_loc_unused].
Qed.

(** The loop over string records, as [map] and [extract] modes have it. *)
Lemma project_all_strings mode strs s :
  mode = "map" ∨ mode = "extract" →
  ∃ ds s',
    project_all mode (VStr <$> strs) s = (Ok ds, s') ∧
    page_content <$> ds = VStr <$> filter (λ x, x ≠ "") strs ∧
    Forall (λ dc, ∃ lm, metadata dc = VRef lm ∧ heap s !! lm = None ∧
                        heap s' !! lm = Some (ODict ∅)) ds ∧
    extends s s'.
Proof.
  intros Hmode. revert s. induction strs as [|x xs IH]; intros s.
  - exists [], s. split; [done|]. split; [done|].
    split; [constructor|apply extends_refl].
  - destruct (project_string_run mode x s Hmode) as (r & s1 & Hproj & Hext1 & Hr).
    destruct (IH s1) as (ds & s' & Hrun & Hpc & Hmd & Hext).
    assert (Hext0 : extends s s') by by eapply extends_trans.
    assert (Hmd' : Forall (λ dc, ∃ lm, metadata dc = VRef lm ∧
                            heap s !! lm = None ∧
                            heap s' !! lm = Some (ODict ∅)) ds).
    { eapply Forall_impl; [exact Hmd|]. intros dc (lm & -> & Hn & Hs).
      exists lm. split; [done|]. split; [|done]. by apply (extends_unused s s1). }
    cbn [fmap list_fmap project_all]. rewrite bind_run, Hproj.
    rewrite bind_run. fold (fmap (M := list) VStr xs). rewrite Hrun.
    rewrite filter_cons. destruct r as [dc|].
    + destruct Hr as (Hx & Hc & lm & Hm & Hn & Hs).
      rewrite decide_True by done.
      eexists _, s'. split; [reflexivity|].
      split; [rewrite !fmap_cons; cbn; by rewrite Hc, Hpc|].
      split; [|done]. constructor; [|done].
      exists lm. split; [done|]. split; [done|]. by apply Hext.
    + subst x. rewrite decide_False by (intros Hx; by apply Hx).
      eexists _, s'. split; [reflexivity|]. split; [done|]. by split.
Qed.

End ProjectorModes.

Section ModeExtras.

Variable remote : string → list value → gmap string value → M value.
Variable py_str : gmap positive obj → value → string.
Variable key_order : positive → gmap string value → list string.

Implicit Types (s : state) (l : positive) (d : gmap string value) (k : string) (v : value).

(** X14: in [map] mode the remote receives [params] as they are, and
    the links it returns become documents in order, one per non-empty
    string, each with a new empty metadata dict. *)
Theorem map_mode_yields_nonempty_links self s l d strs s1 :
  mode self = "map" →
  url self ≠ "" →
  params self = VRef l →
  heap s !! l = Some (ODict d) →
  call_remote remote "map_url" [VStr (url self)] d s
    = (Ok (VList (VStr <$> strs)), s1) →
  ∃ ds s',
    lazy_load remote py_str key_order self s = (Ok ds, s') ∧
    page_content <$> ds = VStr <$> filter (λ x, x ≠ "") strs ∧
    Forall (λ dc, ∃ lm, metadata dc = VRef lm ∧ heap s1 !! lm = None ∧
                        heap s' !! lm = Some (ODict ∅)) ds ∧
    extends s1 s'.
Proof.
  intros Hmode Hurl Hp H Hcall.
  destruct (project_all_strings "map" strs s1 (or_introl eq_refl))
    as (ds & s' & Hrun & Hrest).
  exists ds, s'. split; [|done].
  unfold lazy_load. rewrite Hmode, Hp.
  rewrite (proj2 (String.eqb_neq "map" "scrape")) by done.
  rewrite (proj2 (String.eqb_neq "map" "crawl")) by done.
  rewrite String.eqb_refl, (proj2 (String.eqb_neq _ _) Hurl).
  rewrite !bind_run, (py_kwargs_run _ d) by done.
  by rewrite Hcall.
Qed.

(** X15: in [extract] mode the string form of the remote's answer
    becomes the only document, with a new empty metadata dict, unless that
    string is empty. *)
Theorem extract_mode_yields_one_string self s l d r s1 :
  mode self = "extract" →
  url self ≠ "" →
  params self = VRef l →
  heap s !! l = Some (ODict d) →
  call_remote remote "extract" [VList [VStr (url self)]] d s = (Ok r, s1) →
  ∃ ds s',
    lazy_load remote py_str key_order self s = (Ok ds, s') ∧
    page_content <$> ds
      = VStr <$> filter (λ x, x ≠ "") [py_str (heap s1) r] ∧
    Forall (λ dc, ∃ lm, metadata dc = VRef lm ∧ heap s1 !! lm = None ∧
                        heap s' !! lm = Some (ODict ∅)) ds ∧
    extends s1 s'.
Proof.
  intros Hmode Hurl Hp H Hcall.
  destruct (project_all_strings "extract" [py_str (heap s1) r] s1
              (or_intror eq_refl)) as (ds & s' & Hrun & Hrest).
  exists ds, s'. split; [|done].
  unfold lazy_load. rewrite Hmode, Hp.
  rewrite (proj2 (String.eqb_neq "extract" "scrape")) by done.
  rewrite (proj2 (String.eqb_neq "extract" "crawl")) by done.
  rewrite (proj2 (String.eqb_neq "extract" "map")) by done.
  rewrite String.eqb_refl, (proj2 (String.eqb_neq _ _) Hurl).
  rewrite !bind_run, (py_kwargs_run _ d) by done.
  rewrite bind_run, Hcall. exact Hrun.
Qed.

End ModeExtras.

Section ScrapeMode.

Variable remote : string → list value → gmap string value → M value.
Variable py_str : gmap positive obj → value → string.
Variable key_order : positive → gmap string value → list string.

Implicit Types (s : state) (l : positive) (d : gmap string value) (k : string) (v : value).

(** X16: in [scrape] mode [lazy_load] makes one remote call, whose
    options always hold [formats] and never a flag key, projects the one
    answer, and so yields at most one document. *)
Theorem scrape_mode_single_call self s l d e :
  mode self = "scrape" →
  params self = VRef l →
  heap s !! l = Some (ODict d) →
  extractor_is s l d e →
  flags_ok s l d →
  ∃ kw s1,
    extends s s1 ∧
    is_Some (kw !! "formats") ∧
    Forall (λ row, kw !! row.1.1 = None) flag_table ∧
    lazy_load remote py_str key_order self s
    = (r ← call_remote remote "scrape_url" [VStr (url self)] kw;
       project_all "scrape" [r]) s1 ∧
    ∀ ds s', lazy_load remote py_str key_order self s = (Ok ds, s') →
             (length ds ≤ 1)%nat.
Proof.
  intros Hmode Hp H He Hf.
  set (l' := fresh (dom (heap s))). set (s0 := set_obj l' (ODict d) s).
  set (kw := spec_scrape (heap s0) e d).
  assert (Hrun : lazy_load remote py_str key_order self s
            = (r ← call_remote remote "scrape_url" [VStr (url self)] kw;
               project_all "scrape" [r]) (set_obj l' (ODict kw) s)).
  { unfold lazy_load. rewrite Hmode, Hp. rewrite String.eqb_refl.
    rewrite !bind_run, (py_copy_run _ d) by done. fold l' s0.
    rewrite bind_run, (prepare_scrape_run s0 l' d e);
      [|apply heap_set_obj_eq|by apply (extractor_is_fresh _ l)
       |by apply (flags_ok_fresh _ l)].
    fold kw. unfold s0. rewrite set_obj_twice.
    rewrite bind_run, (py_kwargs_run _ kw) by apply heap_set_obj_eq.
    rewrite bind_run.
    destruct (call_remote remote "scrape_url" _ kw _) as [[r|er] s2]; done. }
  exists kw, (set_obj l' (ODict kw) s). split; [apply extends_fresh|].
  split; [|split; [apply spec_scrape_lookup_flags|split; [done|]]].
  - unfold kw. rewrite spec_scrape_lookup_formats.
    destruct (d !! "formats"); eauto.
  - intros ds s' Hds. rewrite Hrun in Hds.
    apply bind_ok_inv in Hds as (r & s2 & _ & Hds).
    by apply project_all_invariant in Hds as [Hlen _].
Qed.

End ScrapeMode.

Section InitExtras.

Variable firecrawl_installed : bool.
Variable get_from_env : string → string → result string.
Variable client : Type.
Variable FirecrawlApp : string → option string → result client.

Local Abbreviation init :=
  (__init__ firecrawl_installed get_from_env client FirecrawlApp).

(** X17: with the package installed, [__init__] raises [ValueError] for
    a mode outside the five and for an empty url, before it looks for a
    key or creates a client, and leaves the store as it was. *)
Theorem init_rejects_bad_configuration u api_key api_url m p s :
  firecrawl_installed = true →
  (m ∉ allowed_modes →
   ∃ msg, init u api_key api_url m p s = (Raised (ValueError msg), s)) ∧
  (m ∈ allowed_modes → u = "" →
   init u api_key api_url m p s
   = (Raised (ValueError "Url must be provided"), s)).
Proof.
  intros Hinst. unfold __init__. rewrite Hinst. cbn [negb]. split.
  - intros Hmode. rewrite bool_decide_eq_false_2 by done. eauto.
  - intros Hmode ->. by rewrite bool_decide_eq_true_2.
Qed.

(** X18: a loader that [__init__] returns has the given url and mode,
    the mode is one of the five and the url is not empty; truthy [params]
    are kept as the same object, falsy ones are replaced by a new empty
    dict. *)
Theorem init_establishes_loader u api_key api_url m p s self c s' :
  init u api_key api_url m p s = (Constructed (self, c), s') →
  url self = u ∧ mode self = m ∧
  m ∈ allowed_modes ∧ u ≠ "" ∧
  extends s s' ∧
  (truthy_in (heap s) p = Some true → params self = p ∧ s' = s) ∧
  (truthy_in (heap s) p = Some false →
   ∃ l, params self = VRef l ∧ heap s !! l = None ∧
        heap s' !! l = Some (ODict ∅)).
Proof.
  unfold __init__. intros H.
  destruct firecrawl_installed; [|done]. cbn [negb] in H.
  case_bool_decide as Hmode; [|done]. cbn [negb] in H.
  destruct (String.eqb u "") eqn:Hurl; [done|].
  apply String.eqb_neq in Hurl.
  destruct (match api_key with Some _ => _ | None => _ end) as [key|]; [|done].
  destruct (FirecrawlApp key api_url) as [fc|]; [|done].
  destruct (py_or p (alloc (ODict ∅)) s) as [[p0|] s0] eqn:Hor; [|done].
  injection H as <- <- <-. cbn [url mode params].
  do 4 (split; [done|]).
  unfold py_or in Hor. rewrite bind_run in Hor. unfold truthy in Hor.
  destruct (truthy_in (heap s) p) as [[|]|] eqn:Ht; [| |done].
  - injection Hor as <- <-. split; [apply extends_refl|]. split; [done|done].
  - injection Hor as <- <-. split; [apply extends_fresh|]. split; [done|].
    intros _. eexists. split; [done|].
    split; [apply fresh_loc_unused|apply heap_set_obj_eq].
Qed.

End InitExtras.

Module FakeOpenAIExtras.
Import FakeOpenAI.

Lemma length_append (a t : string) :
  String.length (a ++ t) = (String.length a + String.length t)%nat.
Proof. induction a as [|c a IH]; [done|]. simpl. by f_equal. Qed.

Lemma append_inj_r (a b t : string) : a ++ t = b ++ t → a = b.
Proof.
  revert b. induction a as [|c a IH]; intros [|c' b] H.
  - done.
  - apply (f_equal String.length) in H.
    rewrite !length_append in H. cbn in H. lia.
  - apply (f_equal String.length) in H.
    rewrite !length_append in H. cbn in H. lia.
  - cbn in H. injection H as -> H. f_equal. by apply IH.
Qed.

(** X19: the fake client returns exactly [n] pairwise distinct URLs
    [image_0.png] to [image_(n-1).png], in order, for an integer [n]
    greater than 1, and the single URL [image.png] when [n] is absent or
    at most 1. *)
Theorem fake_generate_count kwargs :
  (∀ n, kwargs !! "n" = Some (VInt n) → (1 < n)%Z →
     ∃ r, generate kwargs = Ok r ∧
          url <$> data r = image_url <$> seq 0 (Z.to_nat n) ∧
          length (data r) = Z.to_nat n ∧
          NoDup (url <$> data r)) ∧
  ((kwargs !! "n" = None ∨
    ∃ n, kwargs !! "n" = Some (VInt n) ∧ (n ≤ 1)%Z) →
   generate kwargs = Ok (MkResponse [MkData "https://example.com/image.png"])).
Proof.
  split.
  - intros n Hn Hgt. unfold generate. rewrite Hn.
    rewrite (proj2 (Z.ltb_lt 1 n)) by done. eexists. split; [done|].
    cbn [data].
    assert (Hurls : url <$> (MkData <$> (image_url <$> seq 0 (Z.to_nat n)))
                    = image_url <$> seq 0 (Z.to_nat n)).
    { induction (seq 0 (Z.to_nat n)) as [|x xs IH]; [done|].
      rewrite !fmap_cons. by rewrite IH. }
    split; [done|]. split; [by rewrite !length_fmap, List.length_seq|].
    rewrite Hurls. apply NoDup_fmap_2; [|apply NoDup_seq].
    intros i j Hij. unfold image_url in Hij.
    apply String.app_inj, append_inj_r in Hij.
    by apply (inj pretty).
  - intros [Hn | (n & Hn & Hle)]; unfold generate; rewrite Hn; [done|].
    by rewrite (proj2 (Z.ltb_ge 1 n)).
Qed.

End FakeOpenAIExtras.

(** * Instances of the further properties *)

Local Ltac flags :=
  unfold flags_ok, flag_table; repeat constructor; try discriminate;
  vm_compute; eauto.

Local Ltac not_in_list :=
  let H := fresh in
  intros H; apply list_elem_of_In in H; cbn in H; intuition discriminate.

Lemma scrape_normalisation_idempotent_witness :
  ∃ s', _prepare_scrape_options (VRef 1) (store_of html_only)
          = (Ok (VRef 1), s') ∧
        _prepare_scrape_options (VRef 1) s' = (Ok (VRef 1), s').
Proof.
  apply (scrape_normalisation_idempotent (store_of html_only) 1%positive
           html_only None); [reflexivity|constructor; reflexivity|flags].
Defined.

Lemma scrape_formats_present_witness :
  ∃ d', _prepare_scrape_options (VRef 1) (store_of html_only)
          = (Ok (VRef 1), set_obj 1 (ODict d') (store_of html_only)) ∧
        is_Some (d' !! "formats") ∧
        (html_only !! "formats" = None →
         ∃ fs, d' !! "formats" = Some (VList fs) ∧ fs ≠ [] ∧
               fs `sublist_of` format_tokens).
Proof.
  apply (scrape_formats_present (store_of html_only) 1%positive
           html_only None); [reflexivity|constructor; reflexivity|flags].
Defined.

Lemma scrape_other_keys_pass_through_witness :
  ∃ d', _prepare_scrape_options (VRef 1) (store_of timeout_example)
          = (Ok (VRef 1), set_obj 1 (ODict d') (store_of timeout_example)) ∧
        d' !! "timeout" = timeout_example !! "timeout".
Proof.
  apply (scrape_other_keys_pass_through (store_of timeout_example)
           1%positive timeout_example None);
    [reflexivity|constructor; reflexivity|flags|not_in_list].
Defined.

Lemma crawler_page_options_aliased_witness :
  ∃ s' d',
    _prepare_crawler_options (VRef 1) nested_params = (Ok (VRef 1), s') ∧
    heap s' !! 1%positive = Some (ODict d') ∧
    d' !! "pageOptions" = None ∧
    d' !! "scrapeOptions" = Some (VRef 2) ∧
    heap s' !! 2%positive
      = Some (ODict (spec_scrape (heap nested_params) None
                       {[ "includeHtml" := VBool true ]})) ∧
    calls s' = calls nested_params ∧
    ∀ l0, l0 ≠ 1%positive → l0 ≠ 2%positive →
          heap s' !! l0 = heap nested_params !! l0.
Proof.
  apply (crawler_page_options_aliased nested_params 1%positive
           {[ "pageOptions" := VRef 2 ]} 2%positive
           {[ "includeHtml" := VBool true ]} None);
    [reflexivity|reflexivity|lia|reflexivity|constructor; reflexivity|flags|].
  intros k Hk. apply lookup_singleton_Some in Hk as [_ Hk]. discriminate.
Defined.

Lemma nested_params_page : 
  page_options_is nested_params {[ "pageOptions" := VRef 2 ]}.
Proof.
  apply (page_dict _ _ 2%positive {[ "includeHtml" := VBool true ]} None);
    [reflexivity|reflexivity|constructor; reflexivity|flags].
Defined.

Lemma crawl_copy_frame_witness :
  ∃ p s',
    (p ← py_copy (VRef 1); _prepare_crawler_options p) nested_params
      = (Ok p, s') ∧
    calls s' = calls nested_params ∧
    ∀ l0 o, heap nested_params !! l0 = Some o →
            ({[ "pageOptions" := VRef 2 ]} : gmap string value)
              !! "pageOptions" ≠ Some (VRef l0) →
            heap s' !! l0 = Some o.
Proof.
  apply (crawl_copy_frame nested_params 1%positive
           {[ "pageOptions" := VRef 2 ]});
    [reflexivity|apply nested_params_page].
Defined.

Lemma crawl_legacy_overrides_canonical_witness :
  ∃ l' s' d',
    (p ← py_copy (VRef 1); _prepare_crawler_options p) nested_params
      = (Ok (VRef l'), s') ∧
    heap s' !! l' = Some (ODict d') ∧
    overrides crawl_renames {[ "pageOptions" := VRef 2 ]} d' ∧
    overrides [("pageOptions", "scrapeOptions")]
      {[ "pageOptions" := VRef 2 ]} d' ∧
    ∀ k, k ∉ crawl_rule_keys →
         d' !! k = ({[ "pageOptions" := VRef 2 ]} : gmap string value) !! k.
Proof.
  apply (crawl_legacy_overrides_canonical nested_params 1%positive
           {[ "pageOptions" := VRef 2 ]});
    [reflexivity|apply nested_params_page].
Defined.

Lemma scrape_legacy_tags_override_canonical_witness :
  ∃ d', _prepare_scrape_options (VRef 1) (store_of both_tags_example)
          = (Ok (VRef 1), set_obj 1 (ODict d') (store_of both_tags_example)) ∧
        overrides tag_renames both_tags_example d'.
Proof.
  apply (scrape_legacy_tags_override_canonical (store_of both_tags_example)
           1%positive both_tags_example None);
    [reflexivity|constructor; reflexivity|flags].
Defined.

Lemma scrape_options_not_a_dict_witness :
  _prepare_scrape_options (VStr "onlyMainContent") (store_of ∅)
  = (Err AttributeError, store_of ∅).
Proof.
  apply (scrape_options_not_a_dict (VStr "onlyMainContent") (store_of ∅)).
  exact I.
Defined.

Lemma crawl_page_options_not_a_dict_witness :
  ∃ s', lazy_load empty_response (λ _ _, "") listing_order crawl_loader
          (store_of bad_page_example) = (Err AttributeError, s') ∧
        calls s' = calls (store_of bad_page_example) ∧
        ∀ l0 o, heap (store_of bad_page_example) !! l0 = Some o →
                heap s' !! l0 = Some o.
Proof.
  apply (crawl_page_options_not_a_dict empty_response (λ _ _, "") listing_order
           crawl_loader (store_of bad_page_example) 1%positive
           bad_page_example (VStr "onlyMainContent"));
    [reflexivity|discriminate|reflexivity|reflexivity|reflexivity|exact I].
Defined.

Lemma lazy_load_configuration_errors_witness :
  (∃ msg, lazy_load empty_response (λ _ _, "") listing_order
            (MkLoader "https://firecrawl.dev" "sitemap" (VRef 1))
            (store_of ∅) = (Err (ValueError msg), store_of ∅)) ∧
  lazy_load empty_response (λ _ _, "") listing_order (MkLoader "" "map" (VRef 1))
    (store_of ∅)
  = (Err (ValueError "URL is required for map mode"), store_of ∅).
Proof.
  split.
  - apply (proj1 (lazy_load_configuration_errors empty_response (λ _ _, "") listing_order
                    (MkLoader "https://firecrawl.dev" "sitemap" (VRef 1))
                    (store_of ∅))).
    not_in_list.
  - apply (proj2 (lazy_load_configuration_errors empty_response (λ _ _, "") listing_order
                    (MkLoader "" "map" (VRef 1)) (store_of ∅)));
      [|reflexivity].
    apply list_elem_of_In; cbn; auto.
Defined.

Lemma search_query_is_always_none_witness :
  (∃ e, lazy_load empty_response (λ _ _, "") listing_order search_loader (store_of ∅)
        = (Err e, store_of ∅)) ∨
  (∃ kw, kw !! "query" = Some VNone ∧
         lazy_load empty_response (λ _ _, "") listing_order search_loader (store_of ∅)
         = (firecrawl_docs ← call_remote empty_response "search" [] kw;
            docs ← py_iter listing_order firecrawl_docs;
            project_all "search" docs) (store_of ∅)).
Proof.
  apply (search_query_is_always_none empty_response (λ _ _, "") listing_order
           search_loader (store_of ∅)). reflexivity.
Defined.

Lemma projected_documents_have_content_witness :
  ∃ ds s',
    project_all "scrape" [VRef 1; VStr "x"] html_record = (Ok ds, s') ∧
    (length ds ≤ 2)%nat ∧
    Forall (λ dc, truthy_in (heap s') (page_content dc) = Some true) ds ∧
    extends html_record s'.
Proof.
  eexists _, _. split; [vm_compute; reflexivity|].
  eapply (projected_documents_have_content "scrape" [VRef 1; VStr "x"]
            html_record).
  vm_compute. reflexivity.
Defined.

Lemma plain_records_yield_nothing_witness :
  ∃ s', project_all "crawl" [VRef 1; VStr "# Title"] plain_records
          = (Ok [], s') ∧
        extends plain_records s'.
Proof.
  apply (plain_records_yield_nothing "crawl" [VRef 1; VStr "# Title"]
           plain_records); [discriminate|discriminate|].
  repeat constructor. eexists. reflexivity.
Defined.

Lemma map_mode_yields_nonempty_links_witness :
  ∃ ds s',
    lazy_load links_response (λ _ _, "") listing_order map_loader (store_of ∅)
      = (Ok ds, s') ∧
    page_content <$> ds = [VStr "https://a.dev"; VStr "https://b.dev"].
Proof.
  destruct (map_mode_yields_nonempty_links links_response (λ _ _, "") listing_order
              map_loader (store_of ∅) 1%positive ∅
              ["https://a.dev"; ""; "https://b.dev"]
              (State {[ 1%positive := ODict ∅ ]}
                 [RemoteCall "map_url" [VStr "https://firecrawl.dev"] ∅]))
    as (ds & s' & Hrun & Hpc & _);
    [reflexivity|discriminate|reflexivity|reflexivity|reflexivity|].
  exists ds, s'. split; [exact Hrun|exact Hpc].
Defined.

Lemma extract_mode_yields_one_string_witness :
  ∃ ds s',
    lazy_load empty_response (λ _ _, "{'title': 'Home'}") listing_order extract_loader
      (store_of ∅) = (Ok ds, s') ∧
    page_content <$> ds = [VStr "{'title': 'Home'}"].
Proof.
  edestruct (extract_mode_yields_one_string empty_response
               (λ _ _, "{'title': 'Home'}") listing_order extract_loader
               (store_of ∅)
               1%positive ∅)
    as (ds & s' & Hrun & Hpc & _);
    [reflexivity|discriminate|reflexivity|reflexivity
    |vm_compute; reflexivity|].
  exists ds, s'. split; [exact Hrun|exact Hpc].
Defined.

Lemma scrape_mode_single_call_witness :
  ∃ kw s1,
    extends (store_of html_only) s1 ∧
    is_Some (kw !! "formats") ∧
    Forall (λ row, kw !! row.1.1 = None) flag_table ∧
    lazy_load empty_response (λ _ _, "") listing_order scrape_loader (store_of html_only)
    = (r ← call_remote empty_response "scrape_url"
             [VStr "https://firecrawl.dev"] kw;
       project_all "scrape" [r]) s1 ∧
    ∀ ds s', lazy_load empty_response (λ _ _, "") listing_order scrape_loader
               (store_of html_only) = (Ok ds, s') →
             (length ds ≤ 1)%nat.
Proof.
  apply (scrape_mode_single_call empty_response (λ _ _, "") listing_order scrape_loader
           (store_of html_only) 1%positive html_only None);
    [reflexivity|reflexivity|reflexivity|constructor; reflexivity|flags].
Defined.

Lemma scrape_copy_frame_witness :
  ∃ s',
    (p ← py_copy (VRef 1); _prepare_scrape_options p) extractor_example
      = (Ok (VRef (fresh (dom (heap extractor_example)))), s') ∧
    calls s' = calls extractor_example ∧
    ∀ l0 o, heap extractor_example !! l0 = Some o → heap s' !! l0 = Some o.
Proof.
  apply (scrape_copy_frame extractor_example 1%positive
           {[ "extractorOptions" := VRef 2 ]}
           (Some {[ "extractionPrompt" := VStr "old";
                    "userPrompt" := VStr "new";
                    "extractionSchema" := VStr "schema" ]}));
    [reflexivity| |flags].
  apply (extractor_dict _ _ _ 2%positive); [reflexivity|lia|reflexivity].
Defined.

Lemma init_rejects_bad_configuration_witness :
  (∃ msg, __init__ true (λ _ _, Ok "fc-key") unit (λ _ _, Ok ())
            "https://firecrawl.dev" None None "sitemap" VNone (store_of ∅)
          = (Raised (ValueError msg), store_of ∅)) ∧
  __init__ true (λ _ _, Ok "fc-key") unit (λ _ _, Ok ())
    "" None None "crawl" VNone (store_of ∅)
  = (Raised (ValueError "Url must be provided"), store_of ∅).
Proof.
  split.
  - apply (proj1 (init_rejects_bad_configuration true (λ _ _, Ok "fc-key")
                    unit (λ _ _, Ok ()) "https://firecrawl.dev" None None
                    "sitemap" VNone (store_of ∅) eq_refl)).
    not_in_list.
  - apply (proj2 (init_rejects_bad_configuration true (λ _ _, Ok "fc-key")
                    unit (λ _ _, Ok ()) "" None None "crawl" VNone
                    (store_of ∅) eq_refl)); [|reflexivity].
    apply list_elem_of_In; cbn; auto.
Defined.

Lemma init_establishes_loader_witness :
  ∃ self s',
    __init__ true (λ _ _, Ok "fc-key") unit (λ _ _, Ok ())
      "https://firecrawl.dev" None None "crawl" VNone (store_of ∅)
      = (Constructed (self, ()), s') ∧
    url self = "https://firecrawl.dev" ∧ mode self = "crawl" ∧
    "crawl" ∈ allowed_modes ∧ "https://firecrawl.dev" ≠ "" ∧
    extends (store_of ∅) s'.
Proof.
  eexists _, _. split; [vm_compute; reflexivity|].
  edestruct (init_establishes_loader true (λ _ _, Ok "fc-key") unit
               (λ _ _, Ok ()) "https://firecrawl.dev" None None "crawl"
               VNone (store_of ∅))
    as (Hu & Hm & Hin & Hne & Hext & _); [vm_compute; reflexivity|].
  repeat split; try assumption; apply Hext.
Defined.

Module FakeOpenAIWitnesses.
Import FakeOpenAI FakeOpenAIExtras.

Lemma fake_generate_count_witness :
  ∃ r, generate {[ "n" := VInt 2 ]} = Ok r ∧
       url <$> data r = ["https://example.com/image_0.png";
                         "https://example.com/image_1.png"] ∧
       length (data r) = 2%nat ∧
       NoDup (url <$> data r).
Proof.
  apply (proj1 (fake_generate_count {[ "n" := VInt 2 ]}) 2%Z);
    [reflexivity|lia].
Defined.

End FakeOpenAIWitnesses.
